(** * cocotb: the package entry point ([src/cocotb/__init__.py])

    A shallow embedding of the task escalation monitor, the task wrapper,
    the plusargs parser, the seed resolver, the root handle resolver and the
    regression manager setup, with the properties the specification states
    about them.

    Python [str] values are modelled as [string], one [ascii] per code point
    below 256.  Dictionaries are [gmap]s.  A function that raises, logs,
    warns or calls into a collaborator (regression manager, simulator
    bridge, [random]) runs in the monad [M]: it yields the calls made, in
    order, and either a value or the exception raised.  A call on a
    collaborator is recorded and taken to return. *)

From Stdlib Require Import ZArith String Ascii List Bool Lia.
From stdpp Require Import base option list gmap strings fin_maps.

Local Open Scope string_scope.
Local Open Scope Z_scope.

(** ** Python strings *)

Module PyString.

(** [str.isspace] on one code point below 256: the ASCII whitespace table
    (TAB..CR, FS..US, SPACE) plus NEL (0x85) and NBSP (0xA0). *)
Definition isspace (c : ascii) : bool :=
  let n := N_of_ascii c in
  ((9 <=? n) && (n <=? 13) || (28 <=? n) && (n <=? 32)
   || (n =? 133) || (n =? 160))%N.

(** [s.startswith(p)] *)
Fixpoint startswith (s p : string) {struct p} : bool :=
  match p, s with
  | EmptyString, _ => true
  | String b p', String a s' => Ascii.eqb a b && startswith s' p'
  | String _ _, EmptyString => false
  end.

(** [c in s], for a one-character [c] *)
Fixpoint contains (s : string) (c : ascii) : bool :=
  match s with
  | EmptyString => false
  | String a s' => Ascii.eqb a c || contains s' c
  end.

(** [s.find(c)], for a one-character [c]: the lowest index, or [-1] *)
Fixpoint find (s : string) (c : ascii) : Z :=
  match s with
  | EmptyString => -1
  | String a s' =>
      if Ascii.eqb a c then 0
      else let r := find s' c in if r =? -1 then -1 else r + 1
  end.

(** [s[1:]] *)
Definition from1 (s : string) : string :=
  match s with
  | EmptyString => EmptyString
  | String _ s' => s'
  end.

(** [s.split(sep, maxsplit)], for a one-character [sep]; [maxsplit = None]
    is Python's default (no limit). *)
Fixpoint split (s : string) (sep : ascii) (maxsplit : option nat)
  : list string :=
  match s with
  | EmptyString => [EmptyString]
  | String a s' =>
      if Ascii.eqb a sep && negb (bool_decide (maxsplit = Some O)) then
        EmptyString :: split s' sep (Nat.pred <$> maxsplit)
      else
        match split s' sep maxsplit with
        | piece :: rest => String a piece :: rest
        | [] => [String a EmptyString]
        end
  end.

(** [s.lstrip()] *)
Fixpoint lstrip (s : string) : string :=
  match s with
  | EmptyString => EmptyString
  | String a s' => if isspace a then lstrip s' else s
  end.

(** [s.rstrip()] *)
Fixpoint rstrip (s : string) : string :=
  match s with
  | EmptyString => EmptyString
  | String a s' =>
      match rstrip s' with
      | EmptyString => if isspace a then EmptyString else String a EmptyString
      | r => String a r
      end
  end.

(** [s.strip()] *)
Definition strip (s : string) : string := rstrip (lstrip s).

(** [bool(s)]: a string is true when it is not empty. *)
Definition truthy (s : string) : bool :=
  match s with EmptyString => false | _ => true end.

(** Every character of [s] satisfies [P]. *)
Fixpoint all_chars (P : ascii -> bool) (s : string) : bool :=
  match s with
  | EmptyString => true
  | String a s' => P a && all_chars P s'
  end.

(** The first, resp. last, character of [s] is whitespace. *)
Definition starts_blank (s : string) : bool :=
  match s with
  | EmptyString => false
  | String a _ => isspace a
  end.

Fixpoint ends_blank (s : string) : bool :=
  match s with
  | EmptyString => false
  | String a EmptyString => isspace a
  | String _ s' => ends_blank s'
  end.

(** [c] is the separator or whitespace. *)
Definition sep_or_space (sep c : ascii) : bool :=
  Ascii.eqb c sep || isspace c.

End PyString.

(** ** Python values, exceptions and effects *)

(** The values the module handles: what [os.getenv], [ast.literal_eval] and
    the plusargs dictionary hold.  A float literal is kept as the decimal
    number [m * 10^e] it denotes; any other object (tuple, list, dict, set,
    bytes, complex, ...) is kept as its type name and [repr]. *)
Inductive pyvalue :=
| PyNone
| PyBool (b : bool)
| PyInt (n : Z)
| PyFloat (m e : Z)
| PyStr (s : string)
| PyObject (type_name repr : string).

(** [isinstance(v, str)] *)
Definition is_str (v : pyvalue) : bool :=
  match v with PyStr _ => true | _ => false end.

(** [isinstance(v, int)]; [bool] is a subclass of [int]. *)
Definition is_int (v : pyvalue) : bool :=
  match v with PyInt _ | PyBool _ => true | _ => false end.

(** A formatted message: literal text and [{x!r}] fields. *)
Inductive piece :=
| Text (s : string)
| Repr (v : pyvalue).

(** An exception instance: the names of its class and of the classes it
    derives from (its method resolution order), and its message. *)
Record exn := { exn_mro : list string; exn_args : list piece }.

Definition RuntimeError (msg : list piece) : exn :=
  {| exn_mro := ["RuntimeError"; "Exception"; "BaseException"; "object"];
     exn_args := msg |}.

Definition TypeError (msg : list piece) : exn :=
  {| exn_mro := ["TypeError"; "Exception"; "BaseException"; "object"];
     exn_args := msg |}.

Definition ValueError (msg : list piece) : exn :=
  {| exn_mro := ["ValueError"; "Exception"; "BaseException"; "object"];
     exn_args := msg |}.

Definition IndexError (msg : list piece) : exn :=
  {| exn_mro := ["IndexError"; "LookupError"; "Exception"; "BaseException";
                 "object"];
     exn_args := msg |}.

Definition SyntaxError (msg : list piece) : exn :=
  {| exn_mro := ["SyntaxError"; "Exception"; "BaseException"; "object"];
     exn_args := msg |}.

Definition AssertionError (msg : list piece) : exn :=
  {| exn_mro := ["AssertionError"; "Exception"; "BaseException"; "object"];
     exn_args := msg |}.

(** [cocotb.result.TestSuccess] *)
Definition TestSuccess (msg : list piece) : exn :=
  {| exn_mro := ["TestSuccess"; "Exception"; "BaseException"; "object"];
     exn_args := msg |}.

(** [isinstance(e, classes)] for a tuple of classes *)
Definition isinstance (e : exn) (classes : list string) : bool :=
  existsb (fun c => bool_decide (c ∈ exn_mro e)) classes.

Inductive loglevel := DEBUG | INFO | WARNING | ERROR.

(** [cocotb.regression.RegressionMode] *)
Inductive RegressionMode := REGRESSION | TESTCASE.

(** The calls the module makes on its collaborators. *)
Inductive event :=
| Warn (category message : string)
| Log (logger : string) (level : loglevel) (msg : string)
      (args : list pyvalue)
| AbortTest (e : exn)
| RandomSeed (a : pyvalue)
| GetRootHandle (name : option string)
| NewRegressionManager
| SetupPytestAssertionRewriting
| DiscoverTests (modules : list string)
| AddFilters (filters : list string)
| SetMode (mode : RegressionMode).

Inductive result (A : Type) :=
| Returned (a : A)
| Raised (e : exn).
Arguments Returned {A} a.
Arguments Raised {A} e.

(** A computation: the calls made so far and how it ended. *)
Definition M (A : Type) : Type := list event * result A.

#[global] Instance M_ret : MRet M := fun A a => ([], Returned a).

#[global] Instance M_bind : MBind M := fun A B f m =>
  match m with
  | (tr, Returned a) => let '(tr', r) := f a in ((tr ++ tr')%list, r)
  | (tr, Raised e) => (tr, Raised e)
  end.

Definition emit (ev : event) : M unit := ([ev], Returned tt).
Definition raise {A} (e : exn) : M A := ([], Raised e).

Definition trace {A} (m : M A) : list event := fst m.
Definition outcome {A} (m : M A) : result A := snd m.

(** [warnings.warn(message, DeprecationWarning)] *)
Definition warn_deprecated (message : string) : M unit :=
  emit (Warn "DeprecationWarning" message).

Definition is_abort (ev : event) : bool :=
  match ev with AbortTest _ => true | _ => false end.

Definition is_warning (ev : event) : bool :=
  match ev with Warn _ _ => true | _ => false end.

Definition is_discovery (ev : event) : bool :=
  match ev with DiscoverTests _ => true | _ => false end.

(** ** Tasks and the scheduler's table *)

(** A primed trigger, by identity. *)
Inductive Trigger :=
| TaskComplete (task_id : nat)
| OtherTrigger (id : nat).

#[global] Instance Trigger_eq_dec : EqDecision Trigger.
Proof. solve_decision. Defined.

#[global] Instance Trigger_countable : Countable Trigger.
Proof.
  refine (inj_countable'
    (fun t => match t with TaskComplete n => inl n | OtherTrigger n => inr n end)
    (fun s => match s with inl n => TaskComplete n | inr n => OtherTrigger n end)
    _).
  by intros [].
Defined.

(** Modelled from the spec: [cocotb.task.Task] is not part of this file.  A
    task has an identity, owns a coroutine, says whether it was cancelled,
    holds the error recorded for it (what [exception()] gives once it is
    done, [None] when it succeeded) and has a logging channel. *)
Record Task := {
  task_id : nat;
  coro : nat;
  cancelled : bool;
  exception : option exn;
  log : string
}.

(** Modelled from the spec: [task.complete], the completion condition, one
    per task. *)
Definition complete (t : Task) : Trigger := TaskComplete (task_id t).

(** Modelled from the spec: the scheduler's [_trigger2tasks] dictionary, from
    a trigger to the tasks suspended awaiting it. *)
Record Scheduler := { _trigger2tasks : gmap Trigger (list Task) }.

(** The tasks currently suspended awaiting a trigger. *)
Definition waiting_on (s : Scheduler) (trig : Trigger) : list Task :=
  default [] (_trigger2tasks s !! trig).

(** Modelled from the spec: the scheduler keeps an entry for a trigger only
    while some task is suspended awaiting it. *)
Definition Scheduler_wf (s : Scheduler) : Prop :=
  ∀ trig, _trigger2tasks s !! trig ≠ Some [].

(** ** The escalation monitor *)

Definition _task_done_callback (sched : Scheduler) (task : Task) : M unit :=
  (* if cancelled, do nothing *)
  if cancelled task then mret tt
  (* if there's a Task awaiting this one, don't fail *)
  else if bool_decide (complete task ∈ dom (_trigger2tasks sched)) then mret tt
  else
    (* if no failure, do nothing *)
    match exception task with
    | None => mret tt
    | Some e =>
        (* there was a failure and no one is watching, fail test *)
        if isinstance e ["TestSuccess"; "AssertionError"] then
          emit (Log (log task) INFO "Test stopped by this task" []);;
          emit (AbortTest e)
        else
          emit (Log (log task) ERROR "Exception raised by this task" []);;
          emit (AbortTest e)
    end.

(** ** The task wrapper *)

(** What [create_task] may be handed, by the test it passes: a task, a
    coroutine object, a coroutine function ([str] kept), an async generator
    ([__qualname__] kept), or anything else ([type] and [repr] kept). *)
Inductive pyobj :=
| ObjTask (t : Task)
| ObjCoroutine (c : nat)
| ObjCoroutineFunction (str : string)
| ObjAsyncGen (qualname : string)
| ObjOther (type_str repr_str : string).

(** Modelled from the spec: the constructor [cocotb.task.Task(coro)], a new
    task owning the coroutine; [fresh] is the identity of the new object. *)
Definition Task_new (fresh : nat) (c : nat) : Task :=
  {| task_id := fresh; coro := c; cancelled := false; exception := None;
     log := "cocotb.Task" |}.

Definition create_task (fresh : nat) (coro : pyobj) : result Task :=
  match coro with
  | ObjTask t => Returned t
  | ObjCoroutine c => Returned (Task_new fresh c)
  | ObjCoroutineFunction str =>
      Raised (TypeError
        [Text ("Coroutine function " ++ str
               ++ " should be called prior to being scheduled.")])
  | ObjAsyncGen qualname =>
      Raised (TypeError
        [Text (qualname ++ " is an async generator, not a coroutine. "
               ++ "You likely used the yield keyword instead of await.")])
  | ObjOther type_str repr_str =>
      Raised (TypeError
        [Text ("Attempt to add an object of type " ++ type_str
               ++ " to the scheduler, which isn't a coroutine: "
               ++ repr_str)])
  end.

(** ** The plusargs parser *)

(** The body of the loop of [_process_plusargs], on one [option]. *)
Definition plusargs_option (plusargs : gmap string pyvalue) (option : string)
  : result (gmap string pyvalue) :=
  if PyString.startswith option "+" then
    if negb (PyString.find option "=" =? -1) then
      match PyString.split (PyString.from1 option) "=" (Some 1%nat) with
      | [name; value] => Returned (<[name := PyStr value]> plusargs)
      | l =>
          Raised (ValueError
            [Text (if (length l <? 2)%nat
                   then "not enough values to unpack"
                   else "too many values to unpack")])
      end
    else Returned (<[PyString.from1 option := PyBool true]> plusargs)
  else Returned plusargs.

Fixpoint plusargs_loop (argv : list string) (plusargs : gmap string pyvalue)
  : result (gmap string pyvalue) :=
  match argv with
  | [] => Returned plusargs
  | option :: argv' =>
      match plusargs_option plusargs option with
      | Returned plusargs' => plusargs_loop argv' plusargs'
      | Raised e => Raised e
      end
  end.

Definition _process_plusargs (argv : list string)
  : result (gmap string pyvalue) :=
  plusargs_loop argv ∅.

(** What the specification says one token contributes: [+name=value] binds
    [name] to the text after the first [=], [+name] binds [name] to [True],
    and a token that does not start with [+] binds nothing. *)
Inductive token_binds : string -> option (string * pyvalue) -> Prop :=
| binds_value name value :
    PyString.contains name "=" = false ->
    token_binds ("+" ++ name ++ "=" ++ value) (Some (name, PyStr value))
| binds_flag name :
    PyString.contains name "=" = false ->
    token_binds ("+" ++ name) (Some (name, PyBool true))
| binds_nothing token :
    PyString.startswith token "+" = false ->
    token_binds token None.

(** The dictionary after one more binding. *)
Definition bound (b : option (string * pyvalue))
    (plusargs : gmap string pyvalue) : gmap string pyvalue :=
  match b with
  | Some (name, value) => <[name := value]> plusargs
  | None => plusargs
  end.

(** ** The environment *)

(** [os.getenv(name)] *)
Definition getenv (env : gmap string string) (name : string)
  : option string := env !! name.

(** [os.getenv(name, fallback)] *)
Definition getenv_or (env : gmap string string) (name fallback : string)
  : string := default fallback (env !! name).

(** ** The seed resolver *)

(** [random.seed(a)]: [None], [int], [float], [str], [bytes] and [bytearray]
    are accepted; another type is a [TypeError] (Python 3.11 and later). *)
Definition random_seed (a : pyvalue) : M unit :=
  match a with
  | PyObject type_name _ =>
      if bool_decide (type_name ∈ ["bytes"; "bytearray"])
      then emit (RandomSeed a)
      else raise (TypeError [Text "The only supported seed types are: None, int, float, str, bytes, and bytearray."])
  | _ => emit (RandomSeed a)
  end.

Section SeedResolver.

(** [ast.literal_eval], of Python's library: the value of a literal, or the
    exception it raises on anything else. *)
Variable literal_eval : string -> result pyvalue.

(** [int(time.time())] at the time of the call *)
Variable now : Z.

(** The seed of a plusarg, [name] being ["ntb_random_seed"] or ["seed"]. *)
Definition plusarg_seed_value (name : string) (plusarg_seed : pyvalue)
  : M pyvalue :=
  match plusarg_seed with
  | PyStr text =>
      seed ← ([], literal_eval text);
      if negb (is_int seed) then
        raise (TypeError
          [Text (name ++ " plusargs is not a valid seed value.")])
      else mret seed
  | _ =>
      raise (TypeError [Text (name ++ " plusarg is not a valid seed value.")])
  end.

(** Returns the value bound to [_random_seed]. *)
Definition _setup_random_seed (env : gmap string string)
    (plusargs : gmap string pyvalue) : M pyvalue :=
  seed_envvar ←
    match getenv env "COCOTB_RANDOM_SEED" with
    | None =>
        match getenv env "RANDOM_SEED" with
        | Some v =>
            warn_deprecated
              "RANDOM_SEED is deprecated in favor of COCOTB_RANDOM_SEED";;
            mret (Some v)
        | None => mret None
        end
    | Some v => mret (Some v)
    end;
  _random_seed ←
    match seed_envvar with
    | None =>
        _random_seed ←
          match plusargs !! "ntb_random_seed" with
          | Some plusarg_seed =>
              plusarg_seed_value "ntb_random_seed" plusarg_seed
          | None =>
              match plusargs !! "seed" with
              | Some plusarg_seed => plusarg_seed_value "seed" plusarg_seed
              | None => mret (PyInt now)
              end
          end;
        emit (Log "cocotb" INFO "Seeding Python random module with %d"
                  [_random_seed]);;
        mret _random_seed
    | Some text =>
        _random_seed ← ([], literal_eval text);
        emit (Log "cocotb" INFO
                  "Seeding Python random module with supplied seed %d"
                  [_random_seed]);;
        mret _random_seed
    end;
  random_seed _random_seed;;
  mret _random_seed.

End SeedResolver.

(** ** The root handle resolver *)

(** [cocotb.handle.SimHandle(handle)], the object bound to [top]. *)
Inductive SimHandleBase := SimHandle (handle : nat).

Section RootHandle.

(** [simulator.get_root_handle], of the simulator bridge: a handle, or
    [None] when the simulator finds no such root. *)
Variable get_root_handle : option string -> option nat.

(** Returns the object bound to [top]. *)
Definition _setup_root_handle (env : gmap string string)
  : M SimHandleBase :=
  root_name ←
    match getenv env "COCOTB_TOPLEVEL" with
    | Some root_name =>
        let root_name := PyString.strip root_name in
        if bool_decide (root_name = "") then mret None
        else if PyString.contains root_name "." then
          (* Skip any library component of the toplevel *)
          match PyString.split root_name "." (Some 1%nat) !! 1%nat with
          | Some rest => mret (Some rest)
          | None => raise (IndexError [Text "list index out of range"])
          end
        else mret (Some root_name)
    | None => mret None
    end;
  emit (GetRootHandle root_name);;
  match get_root_handle root_name with
  | None =>
      raise (RuntimeError
        [Text "Can not find root handle ";
         Repr (from_option PyStr PyNone root_name)])
  | Some handle => mret (SimHandle handle)
  end.

(** The last step of [_setup_root_handle] on its own: the bridge is asked
    once for [root_name], and its answer decides. *)
Definition ask_bridge (root_name : option string) : M SimHandleBase :=
  ([GetRootHandle root_name],
   match get_root_handle root_name with
   | None =>
       Raised (RuntimeError
         [Text "Can not find root handle ";
          Repr (from_option PyStr PyNone root_name)])
   | Some handle => Returned (SimHandle handle)
   end).

End RootHandle.

(** ** The regression manager setup *)

(** [[s.strip() for s in text.split(",") if s.strip()]] *)
Definition stripped_items (text : string) : list string :=
  List.map PyString.strip
    (List.filter (fun s => PyString.truthy (PyString.strip s))
       (PyString.split text "," None)).

Definition modules_message : string :=
  "Environment variable COCOTB_TEST_MODULES, which defines the module(s) to execute, is not defined or empty.".

Definition filters_message : string :=
  "Specify only one of COCOTB_TESTCASE or COCOTB_TEST_FILTER".

Definition _setup_regression_manager (env : gmap string string) : M unit :=
  emit NewRegressionManager;;
  (* discover tests *)
  let module_str := getenv_or env "COCOTB_TEST_MODULES" "" in
  if negb (PyString.truthy module_str) then
    raise (RuntimeError [Text modules_message])
  else
    let modules := stripped_items module_str in
    emit SetupPytestAssertionRewriting;;
    emit (DiscoverTests modules);;
    (* filter tests *)
    let testcase_str := PyString.strip (getenv_or env "COCOTB_TESTCASE" "") in
    let test_filter_str :=
      PyString.strip (getenv_or env "COCOTB_TEST_FILTER" "") in
    if PyString.truthy testcase_str && PyString.truthy test_filter_str then
      raise (RuntimeError [Text filters_message])
    else if PyString.truthy testcase_str then
      warn_deprecated "TESTCASE is deprecated in favor of COCOTB_TEST_FILTER";;
      let filters := List.map (fun s => s ++ "$") (stripped_items testcase_str) in
      emit (AddFilters filters);;
      emit (SetMode TESTCASE)
    else if PyString.truthy test_filter_str then
      emit (AddFilters [test_filter_str]);;
      emit (SetMode TESTCASE)
    else mret tt.

(** ** The rest of the module: more collaborator calls *)

(** The arguments of [coverage.coverage(...)]. *)
Inductive coverage_args :=
| CoverageOmit (branch : bool) (omit : list string)
| CoverageConfigFile (config_file : string).

(** The calls of the functions below: those above ([Core]) and the calls
    on the task, the scheduler, the simulator bridge, [sys], [warnings],
    [logging], the profiler and [coverage]. *)
Inductive call :=
| Core (ev : event)
| AddDoneCallback (task : Task)
| ScheduleTask (task : Task)
| FailSimulation (msg : string)
| SetSimEventCallback
| SysPathInsert (index : Z) (path : string)
| LoggingDefaultConfig
| InitializeLogger
| SimpleFilter (action : string)
| GetSimulatorProduct
| GetSimulatorVersion
| ProfilingInitialize
| ProfilingFinalize
| PackageIterate
| DiscoverAll (handle : nat)
| ImportCoverage
| CoverageNew (args : coverage_args)
| CoverageStart
| CoverageStop
| CoverageSave
| NewScheduler
| StartRegression.

(** A computation over these calls. *)
Definition Run (A : Type) : Type := list call * result A.

#[global] Instance Run_ret : MRet Run := fun A a => ([], Returned a).

#[global] Instance Run_bind : MBind Run := fun A B f m =>
  match m with
  | (tr, Returned a) => let '(tr', r) := f a in ((tr ++ tr')%list, r)
  | (tr, Raised e) => (tr, Raised e)
  end.

Definition perform (c : call) : Run unit := ([c], Returned tt).
Definition throw {A} (e : exn) : Run A := ([], Raised e).
Definition calls {A} (m : Run A) : list call := fst m.
Definition ending {A} (m : Run A) : result A := snd m.

(** A computation of the first kind, run inside one of the second. *)
Definition core {A} (m : M A) : Run A := (Core <$> fst m, snd m).

(** A function that only returns or raises. *)
Definition silent {A} (r : result A) : Run A := ([], r).

(** ** Scheduling a task *)

Definition start_soon (fresh : nat) (coro : pyobj) : Run Task :=
  task ← silent (create_task fresh coro);
  perform (AddDoneCallback task);;
  perform (ScheduleTask task);;
  mret task.

(** ** The shutdown callbacks *)

(** A callback is the computation its call runs; it is taken not to
    register callbacks itself. *)
Definition _register_shutdown_callback (_shutdown_callbacks : list (Run unit))
    (cb : Run unit) : list (Run unit) :=
  (_shutdown_callbacks ++ [cb])%list.

Fixpoint _shutdown_testbench (_shutdown_callbacks : list (Run unit))
  : Run unit :=
  match _shutdown_callbacks with
  | [] => mret tt
  | cb :: rest => cb;; _shutdown_testbench rest
  end.

(** A module global that is annotated but not yet assigned, or assigned. *)
Inductive global (A : Type) :=
| Unassigned
| Assigned (a : A).
Arguments Unassigned {A}.
Arguments Assigned {A} a.

Definition NameError (msg : list piece) : exn :=
  {| exn_mro := ["NameError"; "Exception"; "BaseException"; "object"];
     exn_args := msg |}.

(** [regression_manager] holds [None] or the manager. *)
Definition _sim_event (regression_manager : global (option unit))
    (_shutdown_callbacks : list (Run unit)) (msg : string) : Run unit :=
  match regression_manager with
  | Unassigned =>
      throw (NameError [Text "name 'regression_manager' is not defined"])
  | Assigned (Some _) => perform (FailSimulation msg)
  | Assigned None => perform (Core (Log "cocotb" ERROR msg []))
  end;;
  _shutdown_testbench _shutdown_callbacks.

(** ** The simulator bridge *)

Module simulator.

(** What the bridge answers: the product and version texts, the packages
    ([None], or each raw handle with the name its [SimHandle] has), and the
    root handle for a name. *)
Record bridge := {
  get_simulator_product : string;
  get_simulator_version : string;
  package_iterate : option (list (nat * string));
  get_root_handle : option string -> option nat
}.

End simulator.

(** ** The package handles *)

Fixpoint packages_loop (SIM_NAME : string) (pkgs : list (nat * string))
    (pkg_dict : gmap string SimHandleBase)
  : Run (gmap string SimHandleBase) :=
  match pkgs with
  | [] => mret pkg_dict
  | (pkg, name) :: rest =>
      let handle := SimHandle pkg in
      (* Icarus doesn't support named access to package objects,
         so we cannot lazily create handles *)
      (if bool_decide (SIM_NAME = "Icarus Verilog")
       then perform (DiscoverAll pkg) else mret tt);;
      packages_loop SIM_NAME rest (<[name := handle]> pkg_dict)
  end.

(** Returns the attributes of the namespace bound to [packages]. *)
Definition _process_packages (sim : simulator.bridge) (SIM_NAME : string)
  : Run (gmap string SimHandleBase) :=
  perform PackageIterate;;
  match simulator.package_iterate sim with
  | None => mret ∅
  | Some pkgs => packages_loop SIM_NAME pkgs ∅
  end.

(** ** User coverage *)

(** The callback [stop_user_coverage]. *)
Definition stop_user_coverage : Run unit :=
  perform CoverageStop;;
  perform (Core (Log "cocotb" DEBUG "Writing user coverage data" []));;
  perform CoverageSave.

(** [os.getenv(name)], falling back with a warning on the deprecated
    [old_name] when [name] is unset. *)
Definition getenv_deprecated (env : gmap string string)
    (name old_name message : string) : Run (option string) :=
  match getenv env name with
  | None =>
      match getenv env old_name with
      | Some v =>
          perform (Core (Warn "DeprecationWarning" message));;
          mret (Some v)
      | None => mret None
      end
  | Some v => mret (Some v)
  end.

(** Returns the list of shutdown callbacks it leaves.  [importable] says
    whether [import coverage] succeeds; [package_dir] is
    [os.path.dirname(__file__)]. *)
Definition _start_user_coverage (importable : bool) (package_dir : string)
    (env : gmap string string) (_shutdown_callbacks : list (Run unit))
  : Run (list (Run unit)) :=
  coverage_envvar ←
    getenv_deprecated env "COCOTB_USER_COVERAGE" "COVERAGE"
      "COVERAGE is deprecated in favor of COCOTB_USER_COVERAGE";
  if from_option PyString.truthy false coverage_envvar then
    perform ImportCoverage;;
    if negb importable then
      perform (Core (Log "cocotb" ERROR
        "Coverage collection requested but coverage module not available. Install it using `pip install coverage`."
        []));;
      mret _shutdown_callbacks
    else
      config_filepath ←
        getenv_deprecated env "COCOTB_COVERAGE_RCFILE" "COVERAGE_RCFILE"
          "COVERAGE_RCFILE is deprecated in favor of COCOTB_COVERAGE_RCFILE";
      match config_filepath with
      | None =>
          (* Exclude cocotb itself from coverage collection. *)
          perform (Core (Log "cocotb" INFO
            "Collecting coverage of user code. No coverage config file supplied via COCOTB_COVERAGE_RCFILE."
            []));;
          perform (CoverageNew (CoverageOmit true [package_dir ++ "/*"]))
      | Some path =>
          perform (Core (Log "cocotb" INFO
            "Collecting coverage of user code. Coverage config file supplied."
            []));;
          (* Allow the config file to handle all configuration *)
          perform (CoverageNew (CoverageConfigFile path))
      end;;
      perform CoverageStart;;
      mret (_register_shutdown_callback _shutdown_callbacks stop_user_coverage)
  else mret _shutdown_callbacks.

(** ** The bootstrap *)

Module cocotb.

(** The module globals [_initialise_testbench] leaves. *)
Record globals := {
  is_simulation : bool;
  argv : list string;
  SIM_NAME : string;
  SIM_VERSION : string;
  plusargs : gmap string pyvalue;
  packages : gmap string SimHandleBase;
  _random_seed : pyvalue;
  top : SimHandleBase;
  _shutdown_callbacks : list (Run unit)
}.

End cocotb.

Definition _setup_logging : Run unit :=
  perform LoggingDefaultConfig;;
  perform InitializeLogger.

(** The callback [cocotb._profiling.finalize]. *)
Definition profiling_finalize : Run unit := perform ProfilingFinalize.

Section Bootstrap.

Variable literal_eval : string -> result pyvalue.
Variable now : Z.
(** [sys.warnoptions] *)
Variable warnoptions : list string.
Variable coverage_importable : bool.
Variable __version__ : string.
(** [os.path.dirname(__file__)] *)
Variable package_dir : string.
Variable sim : simulator.bridge.
Variable env : gmap string string.
(** The callbacks registered before the call. *)
Variable registered : list (Run unit).

Definition _initialise_testbench (argv_ : list string) : Run cocotb.globals :=
  perform SetSimEventCallback;;
  let is_simulation := true in
  let argv := argv_ in
  perform (SysPathInsert 0 "");;
  _setup_logging;;
  (if bool_decide (warnoptions = []) then perform (SimpleFilter "default")
   else mret tt);;
  perform GetSimulatorProduct;;
  let SIM_NAME := PyString.strip (simulator.get_simulator_product sim) in
  perform GetSimulatorVersion;;
  let SIM_VERSION := PyString.strip (simulator.get_simulator_version sim) in
  perform (Core (Log "cocotb" INFO
    ("Running on " ++ SIM_NAME ++ " version " ++ SIM_VERSION) []));;
  perform (Core (Log "cocotb" INFO
    ("Running tests with cocotb v" ++ __version__ ++ " from " ++ package_dir)
    []));;
  perform ProfilingInitialize;;
  let _shutdown_callbacks :=
    _register_shutdown_callback registered profiling_finalize in
  plusargs ← silent (_process_plusargs argv);
  packages ← _process_packages sim SIM_NAME;
  _random_seed ← core (_setup_random_seed literal_eval now env plusargs);
  top ← core (_setup_root_handle (simulator.get_root_handle sim) env);
  _shutdown_callbacks ←
    _start_user_coverage coverage_importable package_dir env
      _shutdown_callbacks;
  core (_setup_regression_manager env);;
  (* setup global scheduler system *)
  perform NewScheduler;;
  (* start Regression Manager *)
  perform StartRegression;;
  mret {| cocotb.is_simulation := is_simulation;
          cocotb.argv := argv;
          cocotb.SIM_NAME := SIM_NAME;
          cocotb.SIM_VERSION := SIM_VERSION;
          cocotb.plusargs := plusargs;
          cocotb.packages := packages;
          cocotb._random_seed := _random_seed;
          cocotb.top := top;
          cocotb._shutdown_callbacks := _shutdown_callbacks |}.

End Bootstrap.

(** ** A literal evaluator for the examples *)

(** [ast.literal_eval] on the literals the examples use: [None], [True],
    [False], and a decimal integer or a decimal-point number with an
    optional sign, surrounded by blanks.  A string of another form is
    reported as a [SyntaxError]; the properties below that hold for every
    evaluator do not depend on this one. *)
Module DecimalLiterals.

Definition digit (c : ascii) : option Z :=
  let n := N_of_ascii c in
  if ((48 <=? n) && (n <=? 57))%N then Some (Z.of_N n - 48) else None.

Fixpoint digits (acc : Z) (s : string) : option Z :=
  match s with
  | EmptyString => Some acc
  | String c s' =>
      match digit c with
      | Some d => digits (10 * acc + d) s'
      | None => None
      end
  end.

(** A decimal integer literal: no leading zero unless it is all zeros. *)
Definition decinteger (s : string) : option Z :=
  match s with
  | EmptyString => None
  | String "0" _ =>
      if PyString.all_chars (Ascii.eqb "0") s then Some 0 else None
  | _ => digits 0 s
  end.

Definition blank (c : ascii) : bool := Ascii.eqb c " " || Ascii.eqb c "009".

Fixpoint lstrip_space_tab (s : string) : string :=
  match s with
  | EmptyString => EmptyString
  | String a s' => if blank a then lstrip_space_tab s' else s
  end.

Definition number (sign : Z) (s : string) : result pyvalue :=
  match PyString.split s "." (Some 1%nat) with
  | [i] =>
      match decinteger i with
      | Some n => Returned (PyInt (sign * n))
      | None => Raised (SyntaxError [Text "invalid syntax"])
      end
  | [i; f] =>
      match i, f, digits 0 i, digits 0 f with
      | String _ _, String _ _, Some n, Some m =>
          let e := Z.of_nat (String.length f) in
          Returned (PyFloat (sign * (n * 10 ^ e + m)) (- e))
      | _, _, _, _ => Raised (SyntaxError [Text "invalid syntax"])
      end
  | _ => Raised (SyntaxError [Text "invalid syntax"])
  end.

Definition literal_eval (node_or_string : string) : result pyvalue :=
  let s := PyString.rstrip (lstrip_space_tab node_or_string) in
  if bool_decide (s = "None") then Returned PyNone
  else if bool_decide (s = "True") then Returned (PyBool true)
  else if bool_decide (s = "False") then Returned (PyBool false)
  else
    match s with
    | String "-" s' => number (-1) s'
    | String "+" s' => number 1 s'
    | _ => number 1 s
    end.

End DecimalLiterals.

(** ** Example data *)

Module Examples.

Definition boom : exn := RuntimeError [Text "boom"].

Definition failed_task : Task :=
  {| task_id := 1; coro := 10; cancelled := false; exception := Some boom;
     log := "cocotb.Task 1" |}.

Definition cancelled_task : Task :=
  {| task_id := 2; coro := 20; cancelled := true; exception := Some boom;
     log := "cocotb.Task 2" |}.

Definition waiting_task : Task :=
  {| task_id := 3; coro := 30; cancelled := false; exception := None;
     log := "cocotb.Task 3" |}.

(** Task 3 is suspended on some other trigger. *)
Definition nobody_watches : Scheduler :=
  {| _trigger2tasks := {[ OtherTrigger 7 := [waiting_task] ]} |}.

(** Task 3 is suspended awaiting the completion of task 1. *)
Definition somebody_watches : Scheduler :=
  {| _trigger2tasks := {[ TaskComplete 1 := [waiting_task] ]} |}.

(** Both seed variables are set. *)
Definition both_seeds : gmap string string :=
  {[ "COCOTB_RANDOM_SEED" := "42"; "RANDOM_SEED" := "7" ]}.

(** Only the deprecated seed variable is set. *)
Definition deprecated_seed : gmap string string :=
  {[ "RANDOM_SEED" := "7" ]}.

(** The primary seed variable holds a literal that is not an integer. *)
Definition float_seed : gmap string string :=
  {[ "COCOTB_RANDOM_SEED" := "1.5" ]}.

(** Both test filters are set. *)
Definition both_filters : gmap string string :=
  {[ "COCOTB_TEST_MODULES" := "test_dff";
     "COCOTB_TESTCASE" := "test_reset";
     "COCOTB_TEST_FILTER" := "test_.*" ]}.

(** One of the two test filters is blank. *)
Definition blank_testcase : gmap string string :=
  {[ "COCOTB_TEST_MODULES" := "test_dff";
     "COCOTB_TESTCASE" := " ";
     "COCOTB_TEST_FILTER" := "test_.*" ]}.

(** The module list holds separators only. *)
Definition no_modules : gmap string string :=
  {[ "COCOTB_TEST_MODULES" := " , ," ]}.

Definition library_toplevel : gmap string string :=
  {[ "COCOTB_TOPLEVEL" := "  work.top " ]}.

(** A simulator whose only root is [top]. *)
Definition only_top (name : option string) : option nat :=
  if bool_decide (name = Some "top") then Some 1%nat else None.

(** A simulator without any root. *)
Definition no_root (name : option string) : option nat := None.

End Examples.

(** ** More example data *)

Module Scenarios.

(** An error of a class derived from [AssertionError]. *)
Definition check_failed : exn :=
  {| exn_mro := ["ScoreboardMismatch"; "AssertionError"; "Exception";
                 "BaseException"; "object"];
     exn_args := [Text "expected 3, got 4"] |}.

Definition checking_task : Task :=
  {| task_id := 4; coro := 40; cancelled := false;
     exception := Some check_failed; log := "cocotb.Task 4" |}.

Definition finished_task : Task :=
  {| task_id := 5; coro := 50; cancelled := false; exception := None;
     log := "cocotb.Task 5" |}.

(** The primary seed variable holds two literals. *)
Definition two_literals_seed : gmap string string :=
  {[ "COCOTB_RANDOM_SEED" := "4 2" ]}.

Definition both_seed_plusargs : gmap string pyvalue :=
  {[ "ntb_random_seed" := PyStr "5"; "seed" := PyStr "9" ]}.

(** [+seed] was given without a value. *)
Definition seed_flag : gmap string pyvalue := {[ "seed" := PyBool true ]}.

Definition seed_float : gmap string pyvalue := {[ "seed" := PyStr "1.5" ]}.

Definition two_modules : gmap string string :=
  {[ "COCOTB_TEST_MODULES" := " test_a , test_b,," ]}.



(** No module list, both filters. *)
Definition filters_without_modules : gmap string string :=
  {[ "COCOTB_TESTCASE" := "test_reset"; "COCOTB_TEST_FILTER" := "test_.*" ]}.

(** Three callbacks: the second one raises. *)
Definition closes_waves : Run unit := perform ProfilingFinalize.

Definition fails_to_save : Run unit :=
  perform CoverageStop;; throw (RuntimeError [Text "disk full"]).

Definition says_goodbye : Run unit :=
  perform (Core (Log "cocotb" INFO "bye" [])).

Definition two_packages : list (nat * string) :=
  [(11%nat, "pkg_a"); (12%nat, "pkg_b"); (13%nat, "pkg_a")].

Definition icarus : simulator.bridge :=
  {| simulator.get_simulator_product := "Icarus Verilog ";
     simulator.get_simulator_version := "12.0";
     simulator.package_iterate := Some two_packages;
     simulator.get_root_handle := Examples.only_top |}.

(** The primary coverage variable is set, to nothing; the old one to 1. *)
Definition coverage_off_and_on : gmap string string :=
  {[ "COCOTB_USER_COVERAGE" := ""; "COVERAGE" := "1" ]}.

Definition coverage_zero : gmap string string :=
  {[ "COCOTB_USER_COVERAGE" := "0"; "COVERAGE_RCFILE" := "" ]}.

Definition bench_env : gmap string string :=
  {[ "COCOTB_TOPLEVEL" := "work.top"; "COCOTB_TEST_MODULES" := "test_a" ]}.

Definition bench_argv : list string :=
  ["vvp"; "+ntb_random_seed=1"; "+ntb_random_seed=3"; "+trace"].

End Scenarios.

(** ** Reading traces *)

Definition is_random_seed (ev : event) : bool :=
  match ev with RandomSeed _ => true | _ => false end.

(** The plusarg the seed resolver reads when no seed variable is set:
    [ntb_random_seed] if there is one, else [seed] if there is one. *)
Definition seed_plusarg (plusargs : gmap string pyvalue)
  : option (string * pyvalue) :=
  match plusargs !! "ntb_random_seed" with
  | Some value => Some ("ntb_random_seed", value)
  | None =>
      match plusargs !! "seed" with
      | Some value => Some ("seed", value)
      | None => None
      end
  end.

(** [sep.join(items)] *)
Fixpoint join (sep : string) (items : list string) : string :=
  match items with
  | [] => ""
  | [item] => item
  | item :: rest => item ++ sep ++ join sep rest
  end.

(** A name as it comes out of a comma-separated list: not empty, without
    whitespace at either end, without a comma. *)
Definition clean_item (item : string) : Prop :=
  item ≠ ""
  ∧ PyString.starts_blank item = false
  ∧ PyString.ends_blank item = false
  ∧ PyString.contains item "," = false.


(** The raw handle of the last package called [name]. *)
Fixpoint last_named (name : string) (pkgs : list (nat * string))
  : option nat :=
  match pkgs with
  | [] => None
  | (pkg, n) :: rest =>
      match last_named name rest with
      | Some later => Some later
      | None => if bool_decide (n = name) then Some pkg else None
      end
  end.

(** What [_sim_event] does with the message. *)
Definition failure_report (regression_manager : option unit) (msg : string)
  : call :=
  match regression_manager with
  | Some _ => FailSimulation msg
  | None => Core (Log "cocotb" ERROR msg [])
  end.

(** The value of an environment variable with a deprecated alias: that of
    [name] if it is set, else that of [old_name]. *)
Definition env_or_deprecated (env : gmap string string)
    (name old_name : string) : option string :=
  match getenv env name with
  | Some v => Some v
  | None => getenv env old_name
  end.

(** Whether user coverage is collected. *)
Definition coverage_started (importable : bool) (env : gmap string string)
  : bool :=
  from_option PyString.truthy false
    (env_or_deprecated env "COCOTB_USER_COVERAGE" "COVERAGE")
  && importable.



(** The dictionary [_process_plusargs] builds (it never raises). *)
Definition parsed_plusargs (argv : list string) : gmap string pyvalue :=
  match _process_plusargs argv with
  | Returned plusargs => plusargs
  | Raised _ => ∅
  end.

(** The calls of [_initialise_testbench] before it reads the plusargs. *)
Definition bootstrap_preamble (warnoptions : list string)
    (__version__ package_dir : string) (sim : simulator.bridge) : list call :=
  ([SetSimEventCallback; SysPathInsert 0 ""; LoggingDefaultConfig;
    InitializeLogger]
   ++ (if bool_decide (warnoptions = []) then [SimpleFilter "default"] else [])
   ++ [GetSimulatorProduct; GetSimulatorVersion;
       Core (Log "cocotb" INFO
         ("Running on "
          ++ PyString.strip (simulator.get_simulator_product sim)
          ++ " version "
          ++ PyString.strip (simulator.get_simulator_version sim)) []);
       Core (Log "cocotb" INFO
         ("Running tests with cocotb v" ++ __version__ ++ " from "
          ++ package_dir) []);
       ProfilingInitialize])%list.

(** The scheduler is made, or the regression is started. *)
Definition is_start (c : call) : bool :=
  match c with NewScheduler | StartRegression => true | _ => false end.

(** ** Properties *)

Example split_first_only :
  PyString.split "bar=baz=qux" "=" (Some 1%nat) = ["bar"; "baz=qux"].
Proof. reflexivity. Qed.

Example split_all_pieces :
  PyString.split " a, ,b," "," None = [" a"; " "; "b"; ""].
Proof. reflexivity. Qed.

Example strip_both_ends : PyString.strip "  work.top  " = "work.top".
Proof. reflexivity. Qed.

Example literal_eval_int : DecimalLiterals.literal_eval "42" = Returned (PyInt 42).
Proof. reflexivity. Qed.

Example literal_eval_float :
  DecimalLiterals.literal_eval "1.5" = Returned (PyFloat 15 (-1)).
Proof. reflexivity. Qed.

(** *** The monad *)

Lemma bind_returned {A B} (tr : list event) (a : A) (f : A -> M B) :
  (tr, Returned a) ≫= f = ((tr ++ trace (f a))%list, outcome (f a)).
Proof. unfold mbind, M_bind, trace, outcome. by destruct (f a). Qed.

Lemma bind_raised {A B} (tr : list event) (e : exn) (f : A -> M B) :
  (tr, Raised e) ≫= f = (tr, Raised e).
Proof. reflexivity. Qed.

Lemma bind_ret {A B} (a : A) (f : A -> M B) : mret a ≫= f = f a.
Proof. unfold mret, M_ret. rewrite bind_returned. by destruct (f a). Qed.

(** *** Python strings *)

Lemma find_lower_bound s c : -1 <= PyString.find s c.
Proof.
  induction s as [|a s IH]; simpl; [lia|].
  destruct (Ascii.eqb a c); [lia|].
  destruct (Z.eqb_spec (PyString.find s c) (-1)); lia.
Qed.

(** [s.find(c) != -1] says that [c] occurs in [s]. *)
Lemma find_contains s c :
  (PyString.find s c =? -1) = negb (PyString.contains s c).
Proof.
  induction s as [|a s IH]; [reflexivity|].
  cbn [PyString.find PyString.contains].
  destruct (Ascii.eqb a c); [reflexivity|].
  rewrite orb_false_l, <- IH. pose proof (find_lower_bound s c).
  destruct (Z.eqb_spec (PyString.find s c) (-1)) as [Heq|Hne]; [reflexivity|].
  apply Z.eqb_neq. lia.
Qed.

Lemma split_no_more s sep : PyString.split s sep (Some O) = [s].
Proof.
  induction s as [|a s IH]; simpl; [reflexivity|].
  rewrite andb_false_r. by rewrite IH.
Qed.

(** A string without the separator stays in one piece. *)
Lemma split_without_sep s sep maxsplit :
  PyString.contains s sep = false ->
  PyString.split s sep maxsplit = [s].
Proof.
  induction s as [|a s IH]; simpl; [reflexivity|].
  intros H. apply orb_false_elim in H as [Ha Hs].
  rewrite Ha. simpl. by rewrite IH.
Qed.

(** With [maxsplit = 1] the string is cut at the first separator and what
    follows is kept as it is. *)
Lemma split_at_first name value sep :
  PyString.contains name sep = false ->
  PyString.split (name ++ String sep value) sep (Some 1%nat) = [name; value].
Proof.
  induction name as [|a name IH]; simpl.
  - intros _. rewrite Ascii.eqb_refl. simpl. by rewrite split_no_more.
  - intros H. apply orb_false_elim in H as [Ha Hs].
    rewrite Ha. simpl. by rewrite IH.
Qed.

Lemma contains_sep before after sep :
  PyString.contains (before ++ String sep after) sep = true.
Proof.
  induction before as [|a before IH]; simpl.
  - by rewrite Ascii.eqb_refl.
  - rewrite IH. apply orb_true_r.
Qed.

(** A string that contains the separator has a first occurrence of it. *)
Lemma contains_first s sep :
  PyString.contains s sep = true ->
  ∃ before after,
    s = before ++ String sep after ∧ PyString.contains before sep = false.
Proof.
  induction s as [|a s IH]; simpl; [discriminate|].
  destruct (Ascii.eqb_spec a sep) as [->|Hne]; simpl.
  - intros _. by exists EmptyString, s.
  - intros H. destruct (IH H) as (b & r & -> & Hb).
    exists (String a b), r. split; [reflexivity|]. simpl.
    rewrite Hb. by destruct (Ascii.eqb_spec a sep).
Qed.

(** Whitespace is stripped away entirely. *)
Lemma lstrip_blank s :
  PyString.all_chars PyString.isspace s = true -> PyString.lstrip s = "".
Proof.
  induction s as [|a s IH]; simpl; [reflexivity|].
  intros H. apply andb_prop in H as [Ha Hs]. by rewrite Ha, IH.
Qed.

Lemma rstrip_blank s :
  PyString.all_chars PyString.isspace s = true -> PyString.rstrip s = "".
Proof.
  induction s as [|a s IH]; simpl; [reflexivity|].
  intros H. apply andb_prop in H as [Ha Hs]. by rewrite IH, Ha.
Qed.

Lemma strip_blank s :
  PyString.all_chars PyString.isspace s = true -> PyString.strip s = "".
Proof. intros H. unfold PyString.strip. by rewrite lstrip_blank. Qed.

Lemma lstrip_app_blank l s :
  PyString.all_chars PyString.isspace l = true ->
  PyString.lstrip (l ++ s) = PyString.lstrip s.
Proof.
  induction l as [|a l IH]; simpl; [reflexivity|].
  intros H. apply andb_prop in H as [Ha Hl]. by rewrite Ha, IH.
Qed.

Lemma lstrip_fixed s :
  PyString.starts_blank s = false -> PyString.lstrip s = s.
Proof. destruct s as [|a s]; simpl; [reflexivity|]. by intros ->. Qed.

Lemma rstrip_app_blank s r :
  PyString.all_chars PyString.isspace r = true ->
  PyString.ends_blank s = false ->
  PyString.rstrip (s ++ r) = s.
Proof.
  intros Hr. induction s as [|a s IH].
  - intros _. by apply rstrip_blank.
  - destruct s as [|b s].
    + cbn [PyString.ends_blank]. intros Ha.
      change (String a "" ++ r) with (String a r).
      cbn [PyString.rstrip]. by rewrite (rstrip_blank r Hr), Ha.
    + intros Hs. change (String a (String b s) ++ r)
        with (String a (String b s ++ r)).
      cbn [PyString.rstrip]. by rewrite (IH Hs).
Qed.

(** [strip] removes the whitespace around a text that neither starts nor
    ends with whitespace, and nothing else. *)
Lemma strip_surrounding l core r :
  PyString.all_chars PyString.isspace l = true ->
  PyString.all_chars PyString.isspace r = true ->
  PyString.starts_blank core = false ->
  PyString.ends_blank core = false ->
  PyString.strip (l ++ core ++ r) = core.
Proof.
  intros Hl Hr Hs He. unfold PyString.strip. rewrite (lstrip_app_blank _ _ Hl).
  destruct core as [|a core].
  - change ("" ++ r) with r. by rewrite (lstrip_blank r Hr).
  - rewrite lstrip_fixed by exact Hs. by apply rstrip_app_blank.
Qed.

(** The pieces of a text made of separators and whitespace are blank. *)
Lemma split_blank_pieces s sep :
  PyString.all_chars (PyString.sep_or_space sep) s = true ->
  Forall (fun piece => PyString.all_chars PyString.isspace piece = true)
         (PyString.split s sep None).
Proof.
  induction s as [|a s IH]; simpl.
  - intros _. by repeat constructor.
  - intros H. apply andb_prop in H as [Ha Hs]. specialize (IH Hs).
    unfold PyString.sep_or_space in Ha.
    destruct (Ascii.eqb a sep); simpl.
    + by constructor.
    + simpl in Ha. destruct (PyString.split s sep None) as [|piece rest].
      * repeat constructor. simpl. by rewrite Ha.
      * inversion IH; subst. constructor; [|done]. simpl. by rewrite Ha.
Qed.

(** *** The escalation monitor *)

(** A trigger nobody awaits has no entry in a well-formed table. *)
Lemma not_awaited_not_in_table sched trig :
  Scheduler_wf sched ->
  waiting_on sched trig = [] ->
  trig ∉ dom (_trigger2tasks sched).
Proof.
  intros Hwf Hnone Hin. apply elem_of_dom in Hin as [l Hl].
  unfold waiting_on in Hnone. rewrite Hl in Hnone. simpl in Hnone. subst l.
  by apply (Hwf trig).
Qed.

(** A trigger somebody awaits has an entry in the table. *)
Lemma awaited_in_table sched trig (waiter : Task) :
  waiter ∈ waiting_on sched trig ->
  trig ∈ dom (_trigger2tasks sched).
Proof.
  unfold waiting_on. intros Hin. apply elem_of_dom.
  destruct (_trigger2tasks sched !! trig) as [l|]; [by eexists|].
  simpl in Hin. by apply elem_of_nil in Hin.
Qed.

(** C1: a task that is not cancelled, that no task is suspended awaiting,
    and that failed with an error that is neither a [TestSuccess] nor an
    [AssertionError], makes the monitor log "Exception raised by this task"
    at error level on the task's channel and then call the regression
    manager's abort with that error, once, and do nothing else. *)
Theorem unobserved_plain_failure_aborts_once sched task e :
  Scheduler_wf sched ->
  cancelled task = false ->
  waiting_on sched (complete task) = [] ->
  exception task = Some e ->
  isinstance e ["TestSuccess"; "AssertionError"] = false ->
  _task_done_callback sched task =
    ([Log (log task) ERROR "Exception raised by this task" []; AbortTest e],
     Returned tt)
  ∧ List.filter is_abort (trace (_task_done_callback sched task))
    = [AbortTest e].
Proof.
  intros Hwf Hc Hw He Hplain.
  assert (_task_done_callback sched task =
    ([Log (log task) ERROR "Exception raised by this task" []; AbortTest e],
     Returned tt)) as Heq.
  { unfold _task_done_callback. rewrite Hc.
    rewrite bool_decide_eq_false_2
      by (by apply not_awaited_not_in_table).
    rewrite He, Hplain. reflexivity. }
  split; [exact Heq|]. by rewrite Heq.
Qed.

(** C2: for a cancelled task the monitor makes no call at all (no abort, no
    log), whatever error the task holds and whoever awaits it. *)
Theorem cancelled_task_is_silent sched task :
  cancelled task = true ->
  _task_done_callback sched task = ([], Returned tt).
Proof. intros Hc. unfold _task_done_callback. by rewrite Hc. Qed.

(** C3: for a task that is not cancelled and that another task is suspended
    awaiting, the monitor makes no call at all, whatever error the task
    holds; in particular no abort. *)
Theorem awaited_task_is_not_escalated sched task waiter :
  cancelled task = false ->
  waiter ∈ waiting_on sched (complete task) ->
  task_id waiter ≠ task_id task ->
  _task_done_callback sched task = ([], Returned tt)
  ∧ List.filter is_abort (trace (_task_done_callback sched task)) = [].
Proof.
  intros Hc Hin _.
  assert (_task_done_callback sched task = ([], Returned tt)) as Heq.
  { unfold _task_done_callback. rewrite Hc.
    rewrite bool_decide_eq_true_2 by (by eapply awaited_in_table).
    reflexivity. }
  split; [exact Heq|]. by rewrite Heq.
Qed.

Lemma nobody_watches_wf : Scheduler_wf Examples.nobody_watches.
Proof.
  intros trig. simpl.
  destruct (decide (trig = OtherTrigger 7)) as [->|Hne].
  - by rewrite lookup_singleton_eq.
  - by rewrite lookup_singleton_ne.
Qed.

Lemma unobserved_plain_failure_aborts_once_witness :
  _task_done_callback Examples.nobody_watches Examples.failed_task =
    ([Log "cocotb.Task 1" ERROR "Exception raised by this task" [];
      AbortTest Examples.boom], Returned tt)
  ∧ List.filter is_abort
      (trace (_task_done_callback Examples.nobody_watches Examples.failed_task))
    = [AbortTest Examples.boom].
Proof.
  apply (unobserved_plain_failure_aborts_once
           Examples.nobody_watches Examples.failed_task Examples.boom).
  - exact nobody_watches_wf.
  - reflexivity.
  - reflexivity.
  - reflexivity.
  - vm_compute. reflexivity.
Defined.

Lemma cancelled_task_is_silent_witness :
  cancelled Examples.cancelled_task = true
  ∧ exception Examples.cancelled_task = Some Examples.boom
  ∧ _task_done_callback Examples.nobody_watches Examples.cancelled_task
    = ([], Returned tt).
Proof.
  split; [reflexivity|]. split; [reflexivity|].
  apply (cancelled_task_is_silent
           Examples.nobody_watches Examples.cancelled_task).
  reflexivity.
Defined.

Lemma awaited_task_is_not_escalated_witness :
  exception Examples.failed_task = Some Examples.boom
  ∧ _task_done_callback Examples.somebody_watches Examples.failed_task
    = ([], Returned tt)
  ∧ List.filter is_abort
      (trace (_task_done_callback Examples.somebody_watches
                Examples.failed_task)) = [].
Proof.
  split; [reflexivity|].
  apply (awaited_task_is_not_escalated
           Examples.somebody_watches Examples.failed_task
           Examples.waiting_task).
  - reflexivity.
  - unfold waiting_on, complete. simpl. rewrite lookup_singleton_eq.
    simpl. apply list_elem_of_here.
  - simpl. lia.
Defined.


(** *** The plusargs parser *)

(** Every token is of one of the three forms. *)
Lemma token_binds_total token : ∃ b, token_binds token b.
Proof.
  destruct token as [|a rest].
  - exists None. by constructor.
  - destruct (Ascii.eqb_spec a "+") as [->|Hne].
    + destruct (PyString.contains rest "=") eqn:Hc.
      * destruct (contains_first _ _ Hc) as (name & value & -> & Hname).
        exists (Some (name, PyStr value)).
        by apply (binds_value name value).
      * exists (Some (rest, PyBool true)). by apply (binds_flag rest).
    + exists None. constructor. simpl.
      destruct (Ascii.eqb_spec a "+"); [contradiction|reflexivity].
Qed.

(** The loop body does to the dictionary what the token's form says. *)
Lemma plusargs_option_binds plusargs token b :
  token_binds token b ->
  plusargs_option plusargs token = Returned (bound b plusargs).
Proof.
  intros [name value Hname|name Hname|tok Hplus]; unfold plusargs_option.
  - change (PyString.startswith ("+" ++ name ++ "=" ++ value) "+") with true.
    cbv iota. rewrite find_contains, negb_involutive.
    change (PyString.contains ("+" ++ name ++ "=" ++ value) "=")
      with (PyString.contains (name ++ String "=" value) "=").
    rewrite contains_sep.
    change (PyString.from1 ("+" ++ name ++ "=" ++ value))
      with (name ++ String "=" value).
    by rewrite split_at_first.
  - change (PyString.startswith ("+" ++ name) "+") with true.
    cbv iota. rewrite find_contains, negb_involutive.
    change (PyString.contains ("+" ++ name) "=")
      with (PyString.contains name "=").
    by rewrite Hname.
  - by rewrite Hplus.
Qed.

Lemma plusargs_loop_app argv token plusargs :
  plusargs_loop (argv ++ [token])%list plusargs =
  match plusargs_loop argv plusargs with
  | Returned plusargs' => plusargs_option plusargs' token
  | Raised e => Raised e
  end.
Proof.
  revert plusargs. induction argv as [|o argv IH]; intros plusargs; simpl.
  - by destruct (plusargs_option plusargs token).
  - destruct (plusargs_option plusargs o); [apply IH|reflexivity].
Qed.

(** The loop never raises: the unpacking always finds two values. *)
Lemma plusargs_loop_returns argv plusargs :
  ∃ plusargs', plusargs_loop argv plusargs = Returned plusargs'.
Proof.
  revert plusargs. induction argv as [|o argv IH]; intros plusargs; simpl.
  - by eexists.
  - destruct (token_binds_total o) as [b Hb].
    rewrite (plusargs_option_binds _ _ _ Hb). apply IH.
Qed.

(** Later tokens that do not bind [name] leave its entry alone. *)
Lemma plusargs_loop_keeps argv plusargs plusargs' name :
  (∀ token value, token ∈ argv -> ¬ token_binds token (Some (name, value))) ->
  plusargs_loop argv plusargs = Returned plusargs' ->
  plusargs' !! name = plusargs !! name.
Proof.
  revert plusargs. induction argv as [|o argv IH]; intros plusargs Hno; simpl.
  - by intros [= ->].
  - destruct (token_binds_total o) as [b Hb].
    rewrite (plusargs_option_binds _ _ _ Hb). intros Hloop.
    rewrite (IH (bound b plusargs)); [|by intros t v Ht; apply Hno; right|done].
    destruct b as [[k v]|]; simpl; [|done].
    apply lookup_insert_ne. intros ->.
    apply (Hno o v); [by left|done].
Qed.

(** C7: the vector ["+seed=99"; "+foo"; "+bar=baz=qux"] parses to exactly
    [{seed: "99", foo: True, bar: "baz=qux"}].  In general the parser starts
    from the empty dictionary, never raises, and each further token does
    what its form says: [+name=value] (cut at the first [=]) binds [name] to
    the rest as it is, [+name] binds [name] to [True], a token without the
    [+] prefix changes nothing; the binding of a name is that of its last
    occurrence. *)
Theorem plusargs_parser_spec :
  _process_plusargs ["+seed=99"; "+foo"; "+bar=baz=qux"]
    = Returned {[ "seed" := PyStr "99"; "foo" := PyBool true;
                  "bar" := PyStr "baz=qux" ]}
  ∧ _process_plusargs [] = Returned ∅
  ∧ (∀ token, ∃ b, token_binds token b)
  ∧ (∀ argv token b,
       token_binds token b ->
       ∃ plusargs,
         _process_plusargs argv = Returned plusargs
         ∧ _process_plusargs (argv ++ [token])%list
           = Returned (bound b plusargs))
  ∧ (∀ before token after name value,
       token_binds token (Some (name, value)) ->
       (∀ later value',
          later ∈ after -> ¬ token_binds later (Some (name, value'))) ->
       ∃ plusargs,
         _process_plusargs (before ++ token :: after)%list = Returned plusargs
         ∧ plusargs !! name = Some value).
Proof.
  split; [reflexivity|]. split; [reflexivity|].
  split; [exact token_binds_total|]. split.
  - intros argv token b Hb. unfold _process_plusargs.
    destruct (plusargs_loop_returns argv ∅) as [plusargs Hargv].
    exists plusargs. split; [exact Hargv|].
    rewrite plusargs_loop_app, Hargv. by apply plusargs_option_binds.
  - intros before token after name value Hb Hlater. unfold _process_plusargs.
    destruct (plusargs_loop_returns (before ++ token :: after) ∅)
      as [plusargs Hall].
    exists plusargs. split; [exact Hall|].
    destruct (plusargs_loop_returns before ∅) as [p0 Hbefore].
    assert (plusargs_loop (token :: after) p0 = Returned plusargs) as Hrest.
    { rewrite <- Hall. clear -Hbefore. revert Hbefore.
      generalize (∅ : gmap string pyvalue) as p.
      induction before as [|o before IH]; intros p; simpl.
      - by intros [= ->].
      - destruct (plusargs_option p o); [apply IH|discriminate]. }
    simpl in Hrest. rewrite (plusargs_option_binds _ _ _ Hb) in Hrest.
    simpl in Hrest.
    rewrite (plusargs_loop_keeps _ _ _ name Hlater Hrest).
    apply lookup_insert_eq.
Qed.

Lemma plusargs_parser_spec_witness :
  ∃ plusargs,
    _process_plusargs (["+seed=1"] ++ "+seed=2=3" :: ["sim"; "+foo"])%list
      = Returned plusargs
    ∧ plusargs !! "seed" = Some (PyStr "2=3").
Proof.
  apply (proj2 (proj2 (proj2 (proj2 plusargs_parser_spec)))
           ["+seed=1"] "+seed=2=3" ["sim"; "+foo"] "seed" (PyStr "2=3")).
  - apply (binds_value "seed" "2=3"). reflexivity.
  - intros later value' Hin Hb.
    apply list_elem_of_In in Hin. simpl in Hin.
    destruct Hin as [<-|[<-|[]]]; inversion Hb; subst; discriminate.
Defined.

(** *** The task wrapper *)

(** C8: [create_task] returns a task it is handed as it is, whatever the
    identity a new task would get; so wrapping the task that a call of
    [create_task] returned gives that same task again. *)
Theorem create_task_of_task_is_identity :
  (∀ fresh t, create_task fresh (ObjTask t) = Returned t)
  ∧ (∀ fresh fresh' coro t,
       create_task fresh coro = Returned t ->
       create_task fresh' (ObjTask t) = Returned t).
Proof. split; reflexivity. Qed.

Lemma create_task_of_task_is_identity_witness :
  create_task 4 (ObjCoroutine 9) = Returned (Task_new 4 9)
  ∧ create_task 5 (ObjTask (Task_new 4 9)) = Returned (Task_new 4 9).
Proof.
  split; [reflexivity|].
  apply (proj2 create_task_of_task_is_identity 4%nat 5%nat (ObjCoroutine 9)).
  reflexivity.
Defined.

(** *** The seed resolver *)

Section SeedResolverFacts.

Variable literal_eval : string -> result pyvalue.
Variable now : Z.

(** The primary variable, when set, decides alone: neither the deprecated
    variable nor the plusargs are looked at. *)
Lemma primary_seed_decides env plusargs text :
  getenv env "COCOTB_RANDOM_SEED" = Some text ->
  _setup_random_seed literal_eval now env plusargs =
    (_random_seed ← ([], literal_eval text);
     emit (Log "cocotb" INFO
               "Seeding Python random module with supplied seed %d"
               [_random_seed]);;
     random_seed _random_seed;;
     mret _random_seed).
Proof.
  intros Hp. unfold _setup_random_seed. rewrite Hp.
  rewrite bind_ret. destruct (literal_eval text) as [v|e]; [|reflexivity].
  unfold emit. rewrite !bind_returned. simpl.
  by destruct (random_seed v) as [tr [[]|e]].
Qed.

(** What the evaluator raises on the primary variable's text is raised by
    the resolver, before anything is logged or seeded. *)
Lemma malformed_primary_seed_raises env plusargs text e :
  getenv env "COCOTB_RANDOM_SEED" = Some text ->
  literal_eval text = Raised e ->
  _setup_random_seed literal_eval now env plusargs = ([], Raised e).
Proof.
  intros Hp He. rewrite (primary_seed_decides _ _ _ Hp), He. reflexivity.
Qed.

(** The deprecated variable is used, with a warning, when the primary one
    is unset. *)
Lemma deprecated_seed_warns env plusargs text n :
  getenv env "COCOTB_RANDOM_SEED" = None ->
  getenv env "RANDOM_SEED" = Some text ->
  literal_eval text = Returned (PyInt n) ->
  _setup_random_seed literal_eval now env plusargs =
    ([Warn "DeprecationWarning"
           "RANDOM_SEED is deprecated in favor of COCOTB_RANDOM_SEED";
      Log "cocotb" INFO
          "Seeding Python random module with supplied seed %d" [PyInt n];
      RandomSeed (PyInt n)],
     Returned (PyInt n)).
Proof.
  intros Hp Hd He. unfold _setup_random_seed. rewrite Hp, Hd.
  unfold warn_deprecated, emit. rewrite !bind_returned. simpl.
  rewrite He. reflexivity.
Qed.

End SeedResolverFacts.

(** C4, as amended: when the primary seed variable is set to the text of an
    integer (42, say), the seed is that integer whatever the deprecated
    variable holds (7, say), and no warning is emitted: the resolver logs
    the seed, seeds the random module and does nothing else. *)
Theorem primary_seed_wins_silently literal_eval now env plusargs text n :
  getenv env "COCOTB_RANDOM_SEED" = Some text ->
  literal_eval text = Returned (PyInt n) ->
  _setup_random_seed literal_eval now env plusargs =
    ([Log "cocotb" INFO
          "Seeding Python random module with supplied seed %d" [PyInt n];
      RandomSeed (PyInt n)],
     Returned (PyInt n))
  ∧ List.filter is_warning
      (trace (_setup_random_seed literal_eval now env plusargs)) = [].
Proof.
  intros Hp He.
  assert (_setup_random_seed literal_eval now env plusargs =
    ([Log "cocotb" INFO
          "Seeding Python random module with supplied seed %d" [PyInt n];
      RandomSeed (PyInt n)],
     Returned (PyInt n))) as Heq.
  { rewrite (primary_seed_decides _ _ _ _ _ Hp), He. reflexivity. }
  split; [exact Heq|]. by rewrite Heq.
Qed.

Lemma primary_seed_wins_silently_witness :
  getenv Examples.both_seeds "RANDOM_SEED" = Some "7"
  ∧ _setup_random_seed DecimalLiterals.literal_eval 1700000000
      Examples.both_seeds ∅ =
    ([Log "cocotb" INFO
          "Seeding Python random module with supplied seed %d" [PyInt 42];
      RandomSeed (PyInt 42)],
     Returned (PyInt 42))
  ∧ List.filter is_warning
      (trace (_setup_random_seed DecimalLiterals.literal_eval 1700000000
                Examples.both_seeds ∅)) = [].
Proof.
  split; [reflexivity|].
  apply (primary_seed_wins_silently DecimalLiterals.literal_eval 1700000000
           Examples.both_seeds ∅ "42" 42).
  - reflexivity.
  - reflexivity.
Defined.

(** C4, as stated, fails: with the two variables set to 42 and 7 the seed is
    42 but no warning is among the calls made. *)
Lemma both_seeds_set_no_warning :
  ¬ (outcome (_setup_random_seed DecimalLiterals.literal_eval 1700000000
                Examples.both_seeds ∅) = Returned (PyInt 42)
     ∧ ∃ ev, ev ∈ trace (_setup_random_seed DecimalLiterals.literal_eval
                           1700000000 Examples.both_seeds ∅)
             ∧ is_warning ev = true).
Proof.
  intros [_ (ev & Hin & Hw)].
  apply list_elem_of_In in Hin. vm_compute in Hin.
  destruct Hin as [<-|[<-|[]]]; discriminate.
Qed.

(** C6: a primary seed variable holding the literal [1.5] is accepted: the
    resolver binds the float to [_random_seed], logs it, seeds the random
    module with it and returns; no exception is raised. *)
Theorem float_seed_is_accepted :
  _setup_random_seed DecimalLiterals.literal_eval 1700000000
    Examples.float_seed ∅ =
    ([Log "cocotb" INFO
          "Seeding Python random module with supplied seed %d"
          [PyFloat 15 (-1)];
      RandomSeed (PyFloat 15 (-1))],
     Returned (PyFloat 15 (-1))).
Proof. reflexivity. Qed.

(** The same text as the [seed] plusarg is refused: that path checks the
    type of the literal. *)
Lemma float_plusarg_seed_is_refused :
  _setup_random_seed DecimalLiterals.literal_eval 1700000000
    ∅ {[ "seed" := PyStr "1.5" ]} =
    ([], Raised (TypeError [Text "seed plusargs is not a valid seed value."])).
Proof. reflexivity. Qed.

(** *** The regression manager setup *)

Lemma truthy_nonempty s : s ≠ "" -> PyString.truthy s = true.
Proof. by destruct s. Qed.

Lemma stripped_items_blank text :
  PyString.all_chars (PyString.sep_or_space ",") text = true ->
  stripped_items text = [].
Proof.
  intros H. unfold stripped_items.
  induction (split_blank_pieces text "," H) as [|piece rest Hp _ IH];
    simpl; [reflexivity|].
  by rewrite (strip_blank piece Hp).
Qed.

(** C10: when [COCOTB_TEST_MODULES] is a non-empty text made of commas and
    whitespace only, the setup passes the emptiness check: it goes on to
    call test discovery with no module name, and whatever it raises later
    is not the error about the module list. *)
Theorem separators_only_module_list env module_str :
  getenv env "COCOTB_TEST_MODULES" = Some module_str ->
  module_str ≠ "" ->
  PyString.all_chars (PyString.sep_or_space ",") module_str = true ->
  stripped_items module_str = []
  ∧ ∃ rest r,
      _setup_regression_manager env =
        (NewRegressionManager :: SetupPytestAssertionRewriting
           :: DiscoverTests [] :: rest, r)
      ∧ r ≠ Raised (RuntimeError [Text modules_message]).
Proof.
  intros Henv Hne Hblank. split; [by apply stripped_items_blank|].
  unfold _setup_regression_manager. cbv zeta.
  replace (getenv_or env "COCOTB_TEST_MODULES" "") with module_str
    by (unfold getenv_or; unfold getenv in Henv; by rewrite Henv).
  rewrite (truthy_nonempty _ Hne), (stripped_items_blank _ Hblank).
  cbn [negb].
  destruct (PyString.truthy
              (PyString.strip (getenv_or env "COCOTB_TESTCASE" "")));
    destruct (PyString.truthy
                (PyString.strip (getenv_or env "COCOTB_TEST_FILTER" "")));
    eexists _, _; (split; [reflexivity|discriminate]).
Qed.

Lemma separators_only_module_list_witness :
  stripped_items " , ," = []
  ∧ ∃ rest r,
      _setup_regression_manager Examples.no_modules =
        (NewRegressionManager :: SetupPytestAssertionRewriting
           :: DiscoverTests [] :: rest, r)
      ∧ r ≠ Raised (RuntimeError [Text modules_message]).
Proof.
  apply (separators_only_module_list Examples.no_modules " , ,").
  - reflexivity.
  - discriminate.
  - reflexivity.
Defined.

(** C5, as amended: when both filter variables hold something other than
    whitespace, the setup raises.  With a module list it first calls test
    discovery on the modules and then raises the error about the two
    filters, before any filter is added; without one it raises the error
    about the module list, before discovery. *)
Theorem both_filters_raise env :
  PyString.truthy (PyString.strip (getenv_or env "COCOTB_TESTCASE" "")) = true ->
  PyString.truthy (PyString.strip (getenv_or env "COCOTB_TEST_FILTER" "")) = true ->
  _setup_regression_manager env =
    if PyString.truthy (getenv_or env "COCOTB_TEST_MODULES" "") then
      ([NewRegressionManager; SetupPytestAssertionRewriting;
        DiscoverTests (stripped_items (getenv_or env "COCOTB_TEST_MODULES" ""))],
       Raised (RuntimeError [Text filters_message]))
    else
      ([NewRegressionManager], Raised (RuntimeError [Text modules_message])).
Proof.
  intros Ht Hf. unfold _setup_regression_manager. rewrite Ht, Hf.
  by destruct (PyString.truthy (getenv_or env "COCOTB_TEST_MODULES" "")).
Qed.

Lemma both_filters_raise_witness :
  _setup_regression_manager Examples.both_filters =
    ([NewRegressionManager; SetupPytestAssertionRewriting;
      DiscoverTests ["test_dff"]],
     Raised (RuntimeError [Text filters_message])).
Proof.
  apply (both_filters_raise Examples.both_filters); reflexivity.
Defined.

(** C5, as stated, fails: with both filters set, the setup does raise, but
    test discovery has been called by then. *)
Lemma both_filters_discovery_first :
  ¬ (∃ e, outcome (_setup_regression_manager Examples.both_filters) = Raised e
          ∧ List.filter is_discovery
              (trace (_setup_regression_manager Examples.both_filters)) = []).
Proof. intros (e & _ & H). vm_compute in H. discriminate. Qed.

(** A filter variable that holds whitespace only counts as unset. *)
Lemma blank_testcase_is_no_filter :
  _setup_regression_manager Examples.blank_testcase =
    ([NewRegressionManager; SetupPytestAssertionRewriting;
      DiscoverTests ["test_dff"]; AddFilters ["test_.*"]; SetMode TESTCASE],
     Returned tt).
Proof. reflexivity. Qed.

(** *** The root handle resolver *)

Section RootHandleFacts.

Variable get_root_handle : option string -> option nat.

Lemma root_unset env :
  getenv env "COCOTB_TOPLEVEL" = None ->
  _setup_root_handle get_root_handle env = ask_bridge get_root_handle None.
Proof.
  intros H. unfold _setup_root_handle, ask_bridge. rewrite H.
  rewrite bind_ret. unfold emit. rewrite bind_returned.
  by destruct (get_root_handle None).
Qed.

Lemma root_blank env configured :
  getenv env "COCOTB_TOPLEVEL" = Some configured ->
  PyString.strip configured = "" ->
  _setup_root_handle get_root_handle env = ask_bridge get_root_handle None.
Proof.
  intros H Hs. unfold _setup_root_handle, ask_bridge. rewrite H, Hs.
  rewrite bool_decide_eq_true_2 by done.
  rewrite bind_ret. unfold emit. rewrite bind_returned.
  by destruct (get_root_handle None).
Qed.

Lemma root_plain env configured :
  getenv env "COCOTB_TOPLEVEL" = Some configured ->
  PyString.strip configured ≠ "" ->
  PyString.contains (PyString.strip configured) "." = false ->
  _setup_root_handle get_root_handle env =
    ask_bridge get_root_handle (Some (PyString.strip configured)).
Proof.
  intros H Hs Hdot. unfold _setup_root_handle, ask_bridge. rewrite H.
  rewrite bool_decide_eq_false_2 by done. rewrite Hdot.
  rewrite bind_ret. unfold emit. rewrite bind_returned.
  by destruct (get_root_handle _).
Qed.

Lemma root_dotted env configured library rest :
  getenv env "COCOTB_TOPLEVEL" = Some configured ->
  PyString.strip configured = library ++ "." ++ rest ->
  PyString.contains library "." = false ->
  _setup_root_handle get_root_handle env = ask_bridge get_root_handle (Some rest).
Proof.
  intros H Hs Hlib. unfold _setup_root_handle, ask_bridge. rewrite H, Hs.
  rewrite bool_decide_eq_false_2 by (by destruct library).
  change (library ++ "." ++ rest) with (library ++ String "." rest).
  rewrite contains_sep, (split_at_first _ _ _ Hlib).
  cbn [lookup list_lookup]. rewrite bind_ret. unfold emit.
  rewrite bind_returned. by destruct (get_root_handle _).
Qed.

(** In every case the resolver settles on a name and asks the bridge for it:
    the indexing after the split cannot fail. *)
Lemma root_always_asks env :
  ∃ root_name,
    _setup_root_handle get_root_handle env = ask_bridge get_root_handle root_name.
Proof.
  destruct (getenv env "COCOTB_TOPLEVEL") as [configured|] eqn:Henv.
  - destruct (decide (PyString.strip configured = "")) as [Hs|Hs].
    + exists None. by apply (root_blank env configured).
    + destruct (PyString.contains (PyString.strip configured) ".") eqn:Hdot.
      * destruct (contains_first _ _ Hdot) as (library & rest & Heq & Hlib).
        exists (Some rest). by apply (root_dotted env configured library rest).
      * exists (Some (PyString.strip configured)). by apply root_plain.
  - exists None. by apply root_unset.
Qed.

End RootHandleFacts.

(** C9: the resolver strips the whitespace around the configured name and
    always ends by asking the bridge for one name; an unset name, or one
    that is empty once stripped, makes it ask the bridge for the default
    root (no name); a name with a dot is cut after the first dot and the
    bridge is asked for what follows ([work.top] gives [top]); any other
    name is asked for as it is.  When the bridge has no handle for
    the name asked, the resolver raises an error whose message holds that
    very name. *)
Theorem root_handle_resolution get_root_handle env :
  (∀ l core r,
     PyString.all_chars PyString.isspace l = true ->
     PyString.all_chars PyString.isspace r = true ->
     PyString.starts_blank core = false ->
     PyString.ends_blank core = false ->
     PyString.strip (l ++ core ++ r) = core)
  ∧ (∃ root_name,
       _setup_root_handle get_root_handle env
       = ask_bridge get_root_handle root_name)
  ∧ (getenv env "COCOTB_TOPLEVEL" = None ->
     _setup_root_handle get_root_handle env = ask_bridge get_root_handle None)
  ∧ (∀ configured,
       getenv env "COCOTB_TOPLEVEL" = Some configured ->
       PyString.strip configured = "" ->
       _setup_root_handle get_root_handle env
       = ask_bridge get_root_handle None)
  ∧ (∀ configured,
       getenv env "COCOTB_TOPLEVEL" = Some configured ->
       PyString.strip configured ≠ "" ->
       PyString.contains (PyString.strip configured) "." = false ->
       _setup_root_handle get_root_handle env
       = ask_bridge get_root_handle (Some (PyString.strip configured)))
  ∧ (∀ configured library rest,
       getenv env "COCOTB_TOPLEVEL" = Some configured ->
       PyString.strip configured = library ++ "." ++ rest ->
       PyString.contains library "." = false ->
       _setup_root_handle get_root_handle env
       = ask_bridge get_root_handle (Some rest))
  ∧ (getenv env "COCOTB_TOPLEVEL" = Some "work.top" ->
     _setup_root_handle get_root_handle env
     = ask_bridge get_root_handle (Some "top"))
  ∧ (∀ root_name,
       get_root_handle root_name = None ->
       ask_bridge get_root_handle root_name =
         ([GetRootHandle root_name],
          Raised (RuntimeError
            [Text "Can not find root handle ";
             Repr (from_option PyStr PyNone root_name)]))).
Proof.
  split; [exact strip_surrounding|].
  split; [apply root_always_asks|].
  split; [apply root_unset|].
  split; [apply root_blank|].
  split; [apply root_plain|].
  split; [apply root_dotted|].
  split.
  - intros H. by apply (root_dotted _ _ "work.top" "work" "top").
  - intros root_name H. unfold ask_bridge. by rewrite H.
Qed.

Lemma root_handle_resolution_witness :
  _setup_root_handle Examples.no_root Examples.library_toplevel =
    ([GetRootHandle (Some "top")],
     Raised (RuntimeError
       [Text "Can not find root handle "; Repr (PyStr "top")])).
Proof.
  destruct (root_handle_resolution Examples.no_root Examples.library_toplevel)
    as (_ & _ & _ & _ & _ & Hdotted & _ & Hnone).
  rewrite (Hdotted "  work.top " "work" "top" eq_refl eq_refl eq_refl).
  apply (Hnone (Some "top")). reflexivity.
Defined.

Example root_found :
  _setup_root_handle Examples.only_top Examples.library_toplevel =
    ([GetRootHandle (Some "top")], Returned (SimHandle 1)).
Proof. reflexivity. Qed.

(** ** Further properties *)

(** *** Computations over the further calls *)

Lemma run_bind_returned {A B} (tr : list call) (a : A) (f : A -> Run B) :
  (tr, Returned a) ≫= f = ((tr ++ calls (f a))%list, ending (f a)).
Proof. unfold mbind, Run_bind, calls, ending. by destruct (f a). Qed.

Lemma run_bind_raised {A B} (tr : list call) (e : exn) (f : A -> Run B) :
  (tr, Raised e) ≫= f = (tr, Raised e).
Proof. reflexivity. Qed.

Lemma run_bind_ret {A B} (a : A) (f : A -> Run B) : mret a ≫= f = f a.
Proof. unfold mret, Run_ret. rewrite run_bind_returned. by destruct (f a). Qed.

Lemma run_bind_calls {A B} (m : Run A) (f : A -> Run B) :
  calls (m ≫= f) =
  match ending m with
  | Returned a => (calls m ++ calls (f a))%list
  | Raised _ => calls m
  end.
Proof.
  destruct m as [tr [a|e]]; [|reflexivity].
  by rewrite run_bind_returned.
Qed.

Lemma run_bind_ending {A B} (m : Run A) (f : A -> Run B) :
  ending (m ≫= f) =
  match ending m with
  | Returned a => ending (f a)
  | Raised e => Raised e
  end.
Proof.
  destruct m as [tr [a|e]]; [|reflexivity].
  by rewrite run_bind_returned.
Qed.

(** *** The escalation monitor, other outcomes *)

(** X1: a task that is not cancelled, that no task is suspended awaiting, and
    that ended with a [TestSuccess] or an [AssertionError] (or an error of a
    class derived from one of them) makes the monitor log "Test stopped by
    this task" at info level and then abort the test with that error. *)
Theorem unobserved_signal_aborts_with_info sched task e :
  Scheduler_wf sched ->
  cancelled task = false ->
  waiting_on sched (complete task) = [] ->
  exception task = Some e ->
  isinstance e ["TestSuccess"; "AssertionError"] = true ->
  _task_done_callback sched task =
    ([Log (log task) INFO "Test stopped by this task" []; AbortTest e],
     Returned tt).
Proof.
  intros Hwf Hc Hw He Hsig. unfold _task_done_callback. rewrite Hc.
  rewrite bool_decide_eq_false_2 by (by apply not_awaited_not_in_table).
  by rewrite He, Hsig.
Qed.

Lemma unobserved_signal_aborts_with_info_witness :
  _task_done_callback Examples.nobody_watches Scenarios.checking_task =
    ([Log "cocotb.Task 4" INFO "Test stopped by this task" [];
      AbortTest Scenarios.check_failed], Returned tt).
Proof.
  apply (unobserved_signal_aborts_with_info
           Examples.nobody_watches Scenarios.checking_task
           Scenarios.check_failed).
  - exact nobody_watches_wf.
  - reflexivity.
  - reflexivity.
  - reflexivity.
  - vm_compute. reflexivity.
Defined.

(** X2: the monitor never raises, aborts at most once, and aborts only for a
    task that is not cancelled, that nobody awaits and that holds an error,
    with that error; a task without an error makes it do nothing at all. *)
Theorem monitor_aborts_only_unobserved_failures sched task :
  outcome (_task_done_callback sched task) = Returned tt
  ∧ (length (List.filter is_abort (trace (_task_done_callback sched task)))
     <= 1)%nat
  ∧ (∀ e, AbortTest e ∈ trace (_task_done_callback sched task) ->
          cancelled task = false
          ∧ waiting_on sched (complete task) = []
          ∧ exception task = Some e)
  ∧ (exception task = None ->
     _task_done_callback sched task = ([], Returned tt)).
Proof.
  assert (∀ e : exn, AbortTest e ∈ @nil event -> False) as Hnil
    by (intros e' H; by apply elem_of_nil in H).
  unfold _task_done_callback, waiting_on.
  destruct (cancelled task).
  { split; [reflexivity|]. split; [simpl; lia|].
    split; [|done]. intros e' H. by destruct (Hnil e'). }
  destruct (decide (complete task ∈ dom (_trigger2tasks sched))) as [Hin|Hin].
  { rewrite bool_decide_eq_true_2 by done.
    split; [reflexivity|]. split; [simpl; lia|].
    split; [|done]. intros e' H. by destruct (Hnil e'). }
  rewrite bool_decide_eq_false_2 by done.
  apply not_elem_of_dom in Hin. rewrite Hin.
  destruct (exception task) as [e|].
  - destruct (isinstance e ["TestSuccess"; "AssertionError"]);
      (split; [reflexivity|]; split; [simpl; lia|]; split; [|discriminate]);
      intros e' H; apply list_elem_of_In in H; simpl in H;
      destruct H as [H|[H|[]]]; inversion H; by subst.
  - split; [reflexivity|]. split; [simpl; lia|].
    split; [|done]. intros e' H. by destruct (Hnil e').
Qed.

Lemma monitor_aborts_only_unobserved_failures_witness :
  _task_done_callback Examples.nobody_watches Scenarios.finished_task
  = ([], Returned tt).
Proof.
  apply (proj2 (proj2 (proj2
    (monitor_aborts_only_unobserved_failures
       Examples.nobody_watches Scenarios.finished_task)))).
  reflexivity.
Defined.

(** *** Scheduling a task *)

(** X3: [start_soon] hands to the scheduler only what [create_task] gives:
    when [create_task] returns a task (the task it was handed, or a new one
    around a coroutine), the monitor is attached to that task and then the
    task is scheduled, once each, and it is the task returned; when
    [create_task] raises, which is always a [TypeError], the same error is
    raised and no call is made. *)
Theorem start_soon_schedules_or_refuses fresh coro :
  (∃ t, create_task fresh coro = Returned t
        ∧ start_soon fresh coro
          = ([AddDoneCallback t; ScheduleTask t], Returned t))
  ∨ (∃ e, create_task fresh coro = Raised e
          ∧ isinstance e ["TypeError"] = true
          ∧ start_soon fresh coro = ([], Raised e)).
Proof.
  destruct coro as [t|c|str|qualname|type_str repr_str].
  - left. by exists t.
  - left. by exists (Task_new fresh c).
  - right. eexists. by repeat split.
  - right. eexists. by repeat split.
  - right. eexists. by repeat split.
Qed.

(** *** The plusargs parser, as a whole *)

Lemma plusargs_option_ignores plusargs token :
  PyString.startswith token "+" = false ->
  plusargs_option plusargs token = Returned plusargs.
Proof. intros H. unfold plusargs_option. by rewrite H. Qed.

Lemma plusargs_loop_plus_only argv plusargs :
  plusargs_loop (List.filter (fun o => PyString.startswith o "+") argv) plusargs
  = plusargs_loop argv plusargs.
Proof.
  revert plusargs. induction argv as [|o argv IH]; intros plusargs;
    [reflexivity|].
  cbn [List.filter]. destruct (PyString.startswith o "+") eqn:Hplus;
    cbn [plusargs_loop].
  - destruct (plusargs_option plusargs o); [apply IH|reflexivity].
  - rewrite (plusargs_option_ignores _ _ Hplus). apply IH.
Qed.

(** X4: the tokens without the [+] prefix play no part: the parser gives the
    same dictionary for the argument vector with those tokens removed. *)
Theorem plusargs_ignore_other_tokens argv :
  _process_plusargs (List.filter (fun o => PyString.startswith o "+") argv)
  = _process_plusargs argv.
Proof. apply plusargs_loop_plus_only. Qed.

Lemma plusargs_loop_sound argv plusargs plusargs' name value :
  plusargs_loop argv plusargs = Returned plusargs' ->
  plusargs' !! name = Some value ->
  plusargs !! name = Some value
  ∨ ∃ token, token ∈ argv ∧ token_binds token (Some (name, value)).
Proof.
  revert plusargs. induction argv as [|o argv IH]; intros plusargs; simpl.
  - intros [= ->] H. by left.
  - destruct (token_binds_total o) as [b Hb].
    rewrite (plusargs_option_binds _ _ _ Hb). intros Hloop Hlook.
    destruct (IH _ Hloop Hlook) as [Hold|(token & Hin & Htok)].
    + destruct b as [[k v]|]; simpl in Hold; [|by left].
      destruct (decide (k = name)) as [->|Hne].
      * rewrite lookup_insert_eq in Hold. injection Hold as ->.
        right. exists o. split; [by left|done].
      * rewrite lookup_insert_ne in Hold by done. by left.
    + right. exists token. split; [by right|done].
Qed.

Lemma plusargs_loop_complete argv plusargs plusargs' name :
  plusargs_loop argv plusargs = Returned plusargs' ->
  is_Some (plusargs !! name)
  ∨ (∃ token value, token ∈ argv ∧ token_binds token (Some (name, value))) ->
  is_Some (plusargs' !! name).
Proof.
  revert plusargs. induction argv as [|o argv IH]; intros plusargs; simpl.
  - intros [= ->] [H|(token & value & Hin & _)]; [done|].
    by apply elem_of_nil in Hin.
  - destruct (token_binds_total o) as [b Hb].
    rewrite (plusargs_option_binds _ _ _ Hb). intros Hloop Hsrc.
    apply (IH _ Hloop).
    destruct Hsrc as [Hold|(token & value & Hin & Htok)].
    + left. destruct b as [[k v]|]; simpl; [|done].
      destruct (decide (k = name)) as [->|Hne].
      * rewrite lookup_insert_eq. by eexists.
      * by rewrite lookup_insert_ne.
    + apply elem_of_cons in Hin as [->|Hin].
      * left. pose proof (plusargs_option_binds plusargs _ _ Htok) as H1.
        rewrite (plusargs_option_binds plusargs _ _ Hb) in H1.
        injection H1 as ->. simpl. rewrite lookup_insert_eq. by eexists.
      * right. by exists token, value.
Qed.

(** X5: the dictionary holds what the tokens bind and nothing else: an entry
    [name: value] is the binding of some token of the vector, so a value is
    [True] or a string; and each name that some token binds has an entry. *)
Theorem plusargs_entries_are_token_bindings argv plusargs :
  _process_plusargs argv = Returned plusargs ->
  (∀ name value,
     plusargs !! name = Some value ->
     (∃ token, token ∈ argv ∧ token_binds token (Some (name, value)))
     ∧ (value = PyBool true ∨ ∃ text, value = PyStr text))
  ∧ (∀ token name value,
       token ∈ argv -> token_binds token (Some (name, value)) ->
       is_Some (plusargs !! name)).
Proof.
  unfold _process_plusargs. intros Hloop. split.
  - intros name value Hlook.
    destruct (plusargs_loop_sound _ _ _ _ _ Hloop Hlook)
      as [Hempty|(token & Hin & Htok)].
    { by rewrite lookup_empty in Hempty. }
    split; [by exists token|].
    inversion Htok; subst; [right; by eexists|by left].
  - intros token name value Hin Htok.
    apply (plusargs_loop_complete _ _ _ _ Hloop).
    right. by exists token, value.
Qed.

Lemma plusargs_entries_are_token_bindings_witness :
  (∀ name value,
     ({[ "a" := PyStr "1"; "b" := PyBool true ]} : gmap string pyvalue)
       !! name = Some value ->
     (∃ token, token ∈ ["+a=1"; "x=2"; "+b"]
               ∧ token_binds token (Some (name, value)))
     ∧ (value = PyBool true ∨ ∃ text, value = PyStr text))
  ∧ (∀ token name value,
       token ∈ ["+a=1"; "x=2"; "+b"] ->
       token_binds token (Some (name, value)) ->
       is_Some (({[ "a" := PyStr "1"; "b" := PyBool true ]}
                 : gmap string pyvalue) !! name)).
Proof.
  apply (plusargs_entries_are_token_bindings ["+a=1"; "x=2"; "+b"]).
  reflexivity.
Defined.

(** *** The seed resolver, other sources *)

Section SeedSources.

Variable literal_eval : string -> result pyvalue.
Variable now : Z.

(** Without a seed variable the plusargs decide. *)
Lemma no_seed_variable env plusargs :
  getenv env "COCOTB_RANDOM_SEED" = None ->
  getenv env "RANDOM_SEED" = None ->
  _setup_random_seed literal_eval now env plusargs =
    (_random_seed ←
       match seed_plusarg plusargs with
       | Some (name, value) => plusarg_seed_value literal_eval name value
       | None => mret (PyInt now)
       end;
     emit (Log "cocotb" INFO "Seeding Python random module with %d"
               [_random_seed]);;
     random_seed _random_seed;;
     mret _random_seed).
Proof.
  intros Hp Hd. unfold _setup_random_seed, seed_plusarg. rewrite Hp, Hd.
  rewrite bind_ret.
  set (chosen := match plusargs !! "ntb_random_seed" with
                 | Some v => plusarg_seed_value literal_eval "ntb_random_seed" v
                 | None => match plusargs !! "seed" with
                           | Some v => plusarg_seed_value literal_eval "seed" v
                           | None => mret (PyInt now)
                           end
                 end).
  assert (match
            match plusargs !! "ntb_random_seed" with
            | Some value => Some ("ntb_random_seed", value)
            | None => match plusargs !! "seed" with
                      | Some value => Some ("seed", value)
                      | None => None
                      end
            end
          with
          | Some (name, value) => plusarg_seed_value literal_eval name value
          | None => mret (PyInt now)
          end = chosen) as ->.
  { unfold chosen. destruct (plusargs !! "ntb_random_seed"); [done|].
    by destruct (plusargs !! "seed"). }
  destruct chosen as [tr [v|e]]; [|reflexivity].
  unfold emit. rewrite !bind_returned. simpl.
  destruct (random_seed v) as [tr' [[]|e]]; simpl; by rewrite <- app_assoc.
Qed.

Lemma deprecated_seed_unfolded env plusargs text :
  getenv env "COCOTB_RANDOM_SEED" = None ->
  getenv env "RANDOM_SEED" = Some text ->
  _setup_random_seed literal_eval now env plusargs =
    (warn_deprecated
       "RANDOM_SEED is deprecated in favor of COCOTB_RANDOM_SEED";;
     _setup_random_seed literal_eval now
       (<["COCOTB_RANDOM_SEED" := text]> env) plusargs).
Proof.
  intros Hp Hd.
  rewrite (primary_seed_decides literal_eval now
             (<["COCOTB_RANDOM_SEED" := text]> env) plusargs text)
    by (unfold getenv; apply lookup_insert_eq).
  unfold _setup_random_seed. rewrite Hp, Hd.
  unfold warn_deprecated, emit. rewrite !bind_returned. simpl.
  destruct (literal_eval text) as [v|e]; [|reflexivity]. simpl.
  by destruct (random_seed v) as [tr' [[]|e]].
Qed.

(** X6: when the primary seed variable is unset and the deprecated one is
    set, the resolver warns and then does exactly what it does when the
    primary variable holds that text. *)
Theorem deprecated_seed_is_primary_after_warning env plusargs text :
  getenv env "COCOTB_RANDOM_SEED" = None ->
  getenv env "RANDOM_SEED" = Some text ->
  _setup_random_seed literal_eval now env plusargs =
    (warn_deprecated
       "RANDOM_SEED is deprecated in favor of COCOTB_RANDOM_SEED";;
     _setup_random_seed literal_eval now
       (<["COCOTB_RANDOM_SEED" := text]> env) plusargs).
Proof. apply deprecated_seed_unfolded. Qed.

(** X7: when the text of the primary seed variable is not a literal, the
    exception of the evaluator is raised by the resolver, and nothing has
    been logged or seeded. *)
Theorem seed_text_error_is_raised env plusargs text e :
  getenv env "COCOTB_RANDOM_SEED" = Some text ->
  literal_eval text = Raised e ->
  _setup_random_seed literal_eval now env plusargs = ([], Raised e).
Proof. apply malformed_primary_seed_raises. Qed.

Lemma seed_from_plusarg env plusargs name text n :
  getenv env "COCOTB_RANDOM_SEED" = None ->
  getenv env "RANDOM_SEED" = None ->
  seed_plusarg plusargs = Some (name, PyStr text) ->
  literal_eval text = Returned (PyInt n) ->
  _setup_random_seed literal_eval now env plusargs =
    ([Log "cocotb" INFO "Seeding Python random module with %d" [PyInt n];
      RandomSeed (PyInt n)], Returned (PyInt n)).
Proof.
  intros Hp Hd Hsel He. rewrite (no_seed_variable _ _ Hp Hd), Hsel.
  simpl. by rewrite He.
Qed.

(** X8: without a seed variable, the seed is the integer of the
    [ntb_random_seed] plusarg if there is one, whatever [seed] holds; else
    that of the [seed] plusarg if there is one; else the time in seconds.
    It is logged and then given to the random module. *)
Theorem seed_plusargs_then_time env plusargs :
  getenv env "COCOTB_RANDOM_SEED" = None ->
  getenv env "RANDOM_SEED" = None ->
  (∀ name text n,
     seed_plusarg plusargs = Some (name, PyStr text) ->
     literal_eval text = Returned (PyInt n) ->
     _setup_random_seed literal_eval now env plusargs =
       ([Log "cocotb" INFO "Seeding Python random module with %d" [PyInt n];
         RandomSeed (PyInt n)], Returned (PyInt n)))
  ∧ (seed_plusarg plusargs = None ->
     _setup_random_seed literal_eval now env plusargs =
       ([Log "cocotb" INFO "Seeding Python random module with %d" [PyInt now];
         RandomSeed (PyInt now)], Returned (PyInt now)))
  ∧ (∀ value, plusargs !! "ntb_random_seed" = Some value ->
              seed_plusarg plusargs = Some ("ntb_random_seed", value))
  ∧ (∀ value, plusargs !! "ntb_random_seed" = None ->
              plusargs !! "seed" = Some value ->
              seed_plusarg plusargs = Some ("seed", value)).
Proof.
  intros Hp Hd. rewrite (no_seed_variable _ _ Hp Hd).
  split; [|split; [|split]].
  - intros name text n -> He. simpl. by rewrite He.
  - by intros ->.
  - intros value H. unfold seed_plusarg. by rewrite H.
  - intros value H1 H2. unfold seed_plusarg. by rewrite H1, H2.
Qed.

(** X9: without a seed variable, a seed plusarg given as a flag (no [=]), or
    whose text is a literal that is not an integer, makes the resolver raise
    a [TypeError] that names the plusarg; nothing is logged or seeded. *)
Theorem seed_plusarg_must_be_an_integer env plusargs name value :
  getenv env "COCOTB_RANDOM_SEED" = None ->
  getenv env "RANDOM_SEED" = None ->
  seed_plusarg plusargs = Some (name, value) ->
  (is_str value = false ->
   _setup_random_seed literal_eval now env plusargs =
     ([], Raised (TypeError
        [Text (name ++ " plusarg is not a valid seed value.")])))
  ∧ (∀ text v,
       value = PyStr text ->
       literal_eval text = Returned v ->
       is_int v = false ->
       _setup_random_seed literal_eval now env plusargs =
         ([], Raised (TypeError
            [Text (name ++ " plusargs is not a valid seed value.")]))).
Proof.
  intros Hp Hd Hsel. rewrite (no_seed_variable _ _ Hp Hd), Hsel. split.
  - intros Hstr. by destruct value.
  - intros text v -> He Hint. simpl. rewrite He. simpl. by rewrite Hint.
Qed.

(** X10: without a seed variable, a seed the resolver returns is an
    integer. *)
Theorem seed_without_variable_is_int env plusargs v :
  getenv env "COCOTB_RANDOM_SEED" = None ->
  getenv env "RANDOM_SEED" = None ->
  outcome (_setup_random_seed literal_eval now env plusargs) = Returned v ->
  is_int v = true.
Proof.
  intros Hp Hd. rewrite (no_seed_variable _ _ Hp Hd).
  destruct (seed_plusarg plusargs) as [[name value]|].
  - destruct value as [| | | |text|]; try discriminate.
    simpl. destruct (literal_eval text) as [s|e]; [|discriminate]. simpl.
    destruct (is_int s) eqn:Hint; [|discriminate]. simpl.
    destruct (random_seed s) as [tr' [[]|e]]; [|discriminate].
    simpl. by intros [= <-].
  - simpl. by intros [= <-].
Qed.

End SeedSources.

Lemma deprecated_seed_is_primary_after_warning_witness :
  _setup_random_seed DecimalLiterals.literal_eval 1700000000
    Examples.deprecated_seed ∅ =
    (warn_deprecated
       "RANDOM_SEED is deprecated in favor of COCOTB_RANDOM_SEED";;
     _setup_random_seed DecimalLiterals.literal_eval 1700000000
       (<["COCOTB_RANDOM_SEED" := "7"]> Examples.deprecated_seed) ∅).
Proof.
  apply (deprecated_seed_is_primary_after_warning
           DecimalLiterals.literal_eval 1700000000
           Examples.deprecated_seed ∅ "7"); reflexivity.
Defined.

Lemma seed_text_error_is_raised_witness :
  _setup_random_seed DecimalLiterals.literal_eval 1700000000
    Scenarios.two_literals_seed ∅ =
    ([], Raised (SyntaxError [Text "invalid syntax"])).
Proof.
  apply (seed_text_error_is_raised DecimalLiterals.literal_eval 1700000000
           Scenarios.two_literals_seed ∅ "4 2"); reflexivity.
Defined.

Lemma seed_plusargs_then_time_witness :
  _setup_random_seed DecimalLiterals.literal_eval 1700000000 ∅
    Scenarios.both_seed_plusargs =
    ([Log "cocotb" INFO "Seeding Python random module with %d" [PyInt 5];
      RandomSeed (PyInt 5)], Returned (PyInt 5))
  ∧ _setup_random_seed DecimalLiterals.literal_eval 1700000000 ∅ ∅ =
    ([Log "cocotb" INFO "Seeding Python random module with %d"
          [PyInt 1700000000];
      RandomSeed (PyInt 1700000000)], Returned (PyInt 1700000000)).
Proof.
  split.
  - pose proof (seed_plusargs_then_time DecimalLiterals.literal_eval
                  1700000000 ∅ Scenarios.both_seed_plusargs) as H.
    destruct H as (H & _); [reflexivity|reflexivity|].
    apply (H "ntb_random_seed" "5" 5); reflexivity.
  - pose proof (seed_plusargs_then_time DecimalLiterals.literal_eval
                  1700000000 ∅ ∅) as H.
    destruct H as (_ & H & _); [reflexivity|reflexivity|].
    apply H. reflexivity.
Defined.

Lemma seed_plusarg_must_be_an_integer_witness :
  _setup_random_seed DecimalLiterals.literal_eval 1700000000 ∅
    Scenarios.seed_flag =
    ([], Raised (TypeError [Text "seed plusarg is not a valid seed value."]))
  ∧ _setup_random_seed DecimalLiterals.literal_eval 1700000000 ∅
      Scenarios.seed_float =
    ([], Raised (TypeError [Text "seed plusargs is not a valid seed value."])).
Proof.
  split.
  - pose proof (seed_plusarg_must_be_an_integer
                  DecimalLiterals.literal_eval 1700000000 ∅
                  Scenarios.seed_flag "seed" (PyBool true)) as H.
    destruct H as (H & _); [reflexivity|reflexivity|reflexivity|].
    apply H. reflexivity.
  - pose proof (seed_plusarg_must_be_an_integer
                  DecimalLiterals.literal_eval 1700000000 ∅
                  Scenarios.seed_float "seed" (PyStr "1.5")) as H.
    destruct H as (_ & H); [reflexivity|reflexivity|reflexivity|].
    apply (H "1.5" (PyFloat 15 (-1))); reflexivity.
Defined.

Lemma seed_without_variable_is_int_witness : is_int (PyInt 5) = true.
Proof.
  apply (seed_without_variable_is_int DecimalLiterals.literal_eval
           1700000000 ∅ Scenarios.both_seed_plusargs (PyInt 5));
    reflexivity.
Defined.

Lemma outcome_after_emit {A} (ev : event) (m : M A) :
  outcome (emit ev;; m) = outcome m.
Proof. unfold emit. rewrite bind_returned. reflexivity. Qed.

Lemma trace_after_emit {A} (ev : event) (m : M A) :
  trace (emit ev;; m) = ev :: trace m.
Proof. unfold emit. rewrite bind_returned. reflexivity. Qed.

(** The part of the resolver that follows the choice of the source. *)
Lemma seed_tail (source : M pyvalue) (fmt : string) :
  trace source = [] ->
  match outcome (_random_seed ← source;
                 emit (Log "cocotb" INFO fmt [_random_seed]);;
                 random_seed _random_seed;;
                 mret _random_seed) with
  | Returned v =>
      trace (_random_seed ← source;
             emit (Log "cocotb" INFO fmt [_random_seed]);;
             random_seed _random_seed;;
             mret _random_seed)
      = [Log "cocotb" INFO fmt [v]; RandomSeed v]
  | Raised _ =>
      List.filter is_random_seed
        (trace (_random_seed ← source;
                emit (Log "cocotb" INFO fmt [_random_seed]);;
                random_seed _random_seed;;
                mret _random_seed)) = []
  end.
Proof.
  intros H. destruct source as [tr [s|e]]; simpl in H; subst tr;
    [|reflexivity].
  unfold random_seed, emit.
  destruct s; try reflexivity.
  unfold outcome, trace, mbind, M_bind, raise. simpl.
  by case_bool_decide.
Qed.

Lemma plusarg_seed_value_silent literal_eval name value :
  trace (plusarg_seed_value literal_eval name value) = [].
Proof.
  destruct value; try reflexivity. simpl.
  destruct (literal_eval s) as [v|e]; [|reflexivity]. simpl.
  by destruct (is_int v).
Qed.

(** X11: in every case, when the resolver returns a seed it has given that
    seed, and nothing else, to the random module, once, as its last call,
    right after logging it; when it raises, the random module has not been
    seeded. *)
Theorem seed_given_exactly_once literal_eval now env plusargs :
  match outcome (_setup_random_seed literal_eval now env plusargs) with
  | Returned v =>
      List.filter is_random_seed
        (trace (_setup_random_seed literal_eval now env plusargs))
      = [RandomSeed v]
      ∧ ∃ before fmt,
          trace (_setup_random_seed literal_eval now env plusargs)
          = (before ++ [Log "cocotb" INFO fmt [v]; RandomSeed v])%list
  | Raised _ =>
      List.filter is_random_seed
        (trace (_setup_random_seed literal_eval now env plusargs)) = []
  end.
Proof.
  destruct (getenv env "COCOTB_RANDOM_SEED") as [text|] eqn:Hp.
  - rewrite (primary_seed_decides _ _ _ _ _ Hp).
    pose proof (seed_tail ([], literal_eval text)
      "Seeding Python random module with supplied seed %d" eq_refl) as H.
    destruct (outcome _) as [v|e]; [|exact H].
    rewrite H. split; [reflexivity|]. eexists [], _. reflexivity.
  - destruct (getenv env "RANDOM_SEED") as [text|] eqn:Hd.
    + rewrite (deprecated_seed_unfolded _ _ _ _ _ Hp Hd).
      rewrite (primary_seed_decides literal_eval now
                 (<["COCOTB_RANDOM_SEED" := text]> env) plusargs text)
        by (unfold getenv; apply lookup_insert_eq).
      pose proof (seed_tail ([], literal_eval text)
        "Seeding Python random module with supplied seed %d" eq_refl) as H.
      unfold warn_deprecated. rewrite outcome_after_emit, trace_after_emit.
      destruct (outcome _) as [v|e].
      * rewrite H. split; [reflexivity|]. eexists [_], _. reflexivity.
      * simpl. exact H.
    + rewrite (no_seed_variable _ _ _ _ Hp Hd).
      assert (trace (match seed_plusarg plusargs with
                     | Some (name, value) =>
                         plusarg_seed_value literal_eval name value
                     | None => mret (PyInt now)
                     end) = []) as Hsilent.
      { destruct (seed_plusarg plusargs) as [[name value]|]; [|reflexivity].
        apply plusarg_seed_value_silent. }
      pose proof (seed_tail _ "Seeding Python random module with %d" Hsilent)
        as H.
      destruct (outcome _) as [v|e]; [|exact H].
      rewrite H. split; [reflexivity|]. eexists [], _. reflexivity.
Qed.

(** *** Comma-separated lists *)

Lemma lstrip_starts s : PyString.starts_blank (PyString.lstrip s) = false.
Proof.
  induction s as [|a s IH]; simpl; [reflexivity|].
  destruct (PyString.isspace a) eqn:Ha; [exact IH|]. simpl. exact Ha.
Qed.

Lemma rstrip_ends s : PyString.ends_blank (PyString.rstrip s) = false.
Proof.
  induction s as [|a s IH]; [reflexivity|].
  cbn [PyString.rstrip]. destruct (PyString.rstrip s) as [|b r].
  - destruct (PyString.isspace a) eqn:Ha; [reflexivity|]. simpl. exact Ha.
  - exact IH.
Qed.

Lemma rstrip_starts s :
  PyString.starts_blank s = false ->
  PyString.starts_blank (PyString.rstrip s) = false.
Proof.
  destruct s as [|a s]; [reflexivity|]. cbn [PyString.rstrip].
  simpl. intros Ha. destruct (PyString.rstrip s); [|exact Ha].
  by rewrite Ha.
Qed.

Lemma lstrip_contains s c :
  PyString.contains s c = false ->
  PyString.contains (PyString.lstrip s) c = false.
Proof.
  induction s as [|a s IH]; simpl; [reflexivity|].
  intros H. apply orb_false_elim in H as [Ha Hs].
  destruct (PyString.isspace a); [by apply IH|]. simpl. by rewrite Ha, Hs.
Qed.

Lemma rstrip_contains s c :
  PyString.contains s c = false ->
  PyString.contains (PyString.rstrip s) c = false.
Proof.
  induction s as [|a s IH]; [reflexivity|].
  cbn [PyString.rstrip PyString.contains].
  intros H. apply orb_false_elim in H as [Ha Hs]. specialize (IH Hs).
  destruct (PyString.rstrip s) as [|b r].
  - destruct (PyString.isspace a); [reflexivity|]. simpl. by rewrite Ha.
  - cbn [PyString.contains] in *. by rewrite Ha, IH.
Qed.

Lemma strip_contains s c :
  PyString.contains s c = false ->
  PyString.contains (PyString.strip s) c = false.
Proof.
  intros H. unfold PyString.strip. by apply rstrip_contains, lstrip_contains.
Qed.

(** What [strip] gives has no whitespace at either end. *)
Lemma strip_trimmed s :
  PyString.starts_blank (PyString.strip s) = false
  ∧ PyString.ends_blank (PyString.strip s) = false.
Proof.
  unfold PyString.strip. split.
  - apply rstrip_starts, lstrip_starts.
  - apply rstrip_ends.
Qed.

(** [strip] leaves a text without whitespace at its ends as it is. *)
Lemma strip_fixed s :
  PyString.starts_blank s = false ->
  PyString.ends_blank s = false ->
  PyString.strip s = s.
Proof.
  intros Hs He. unfold PyString.strip. rewrite (lstrip_fixed _ Hs).
  induction s as [|a s IH]; [reflexivity|].
  cbn [PyString.rstrip]. destruct s as [|b s].
  - simpl in He. simpl. by rewrite He.
  - assert (PyString.rstrip (String b s) = String b s) as ->; [|reflexivity].
    clear IH Hs. revert a b He. induction s as [|c s IH]; intros a b He.
    + simpl in He. simpl. by rewrite He.
    + cbn [PyString.rstrip]. cbn [PyString.rstrip] in IH.
      rewrite (IH b c) by exact He. reflexivity.
Qed.

Lemma split_nonempty s sep maxsplit : PyString.split s sep maxsplit ≠ [].
Proof.
  destruct s as [|a s]; simpl; [discriminate|].
  destruct (_ && _); [discriminate|].
  by destruct (PyString.split s sep maxsplit).
Qed.

(** The pieces of a split hold no separator. *)
Lemma split_pieces_without_sep s sep :
  Forall (fun piece => PyString.contains piece sep = false)
         (PyString.split s sep None).
Proof.
  induction s as [|a s IH]; simpl.
  - by repeat constructor.
  - destruct (Ascii.eqb a sep) eqn:Ha; simpl.
    + by constructor.
    + destruct (PyString.split s sep None) as [|piece rest].
      * repeat constructor. simpl. by rewrite Ha.
      * inversion IH; subst. constructor; [|done]. simpl. by rewrite Ha.
Qed.

(** Splitting a text with a separator in the middle: the pieces of the left
    part, then those of the right part. *)
Lemma split_app s1 s2 sep :
  PyString.split (s1 ++ String sep s2) sep None
  = (PyString.split s1 sep None ++ PyString.split s2 sep None)%list.
Proof.
  induction s1 as [|a s1 IH]; simpl.
  - by rewrite Ascii.eqb_refl.
  - destruct (Ascii.eqb a sep); simpl.
    + by rewrite IH.
    + rewrite IH.
      pose proof (split_nonempty s1 sep None) as Hne.
      by destruct (PyString.split s1 sep None).
Qed.

Lemma stripped_items_app text1 text2 :
  stripped_items (text1 ++ "," ++ text2)
  = (stripped_items text1 ++ stripped_items text2)%list.
Proof.
  unfold stripped_items.
  change (text1 ++ "," ++ text2) with (text1 ++ String "," text2).
  by rewrite split_app, List.filter_app, List.map_app.
Qed.

Lemma stripped_items_clean text : clean_item text -> stripped_items text = [text].
Proof.
  intros (Hne & Hs & He & Hc). unfold stripped_items.
  rewrite (split_without_sep _ _ _ Hc). cbn [List.filter].
  rewrite (strip_fixed _ Hs He).
  destruct text; [by destruct Hne|]. simpl. by rewrite (strip_fixed _ Hs He).
Qed.

(** X12: the names taken from a comma-separated list are never empty, never
    start or end with whitespace and never hold a comma. *)
Theorem stripped_items_are_clean text item :
  item ∈ stripped_items text -> clean_item item.
Proof.
  unfold stripped_items. intros Hin.
  apply list_elem_of_In, List.in_map_iff in Hin as (piece & <- & Hin).
  apply List.filter_In in Hin as [Hin Htruthy].
  destruct (strip_trimmed piece) as [Hs He].
  split; [by destruct (PyString.strip piece)|].
  split; [exact Hs|]. split; [exact He|].
  apply strip_contains.
  pose proof (split_pieces_without_sep text ",") as Hall.
  rewrite List.Forall_forall in Hall. by apply Hall.
Qed.

Lemma stripped_items_are_clean_witness : clean_item "test_b".
Proof.
  apply (stripped_items_are_clean " test_a , test_b,," "test_b").
  apply list_elem_of_In. vm_compute. right. left. reflexivity.
Defined.

(** X13: a list of clean names joined with commas is split back into these
    names, in order. *)
Theorem stripped_items_of_join items :
  Forall clean_item items ->
  stripped_items (join "," items) = items.
Proof.
  induction 1 as [|item rest Hitem Hrest IH]; [reflexivity|].
  destruct rest as [|next rest].
  - simpl. by apply stripped_items_clean.
  - change (join "," (item :: next :: rest))
      with (item ++ "," ++ join "," (next :: rest)).
    by rewrite stripped_items_app, IH, (stripped_items_clean _ Hitem).
Qed.

Lemma stripped_items_of_join_witness :
  stripped_items (join "," ["test_a"; "pkg.test_b"]) = ["test_a"; "pkg.test_b"].
Proof.
  apply (stripped_items_of_join ["test_a"; "pkg.test_b"]).
  repeat constructor; discriminate.
Defined.

(** *** The regression manager setup, other cases *)

(** X14: when [COCOTB_TEST_MODULES] is unset or empty, the setup constructs
    the regression manager and raises the error about the module list; no
    test is discovered and no filter variable is looked at. *)
Theorem missing_modules_raise_first env :
  getenv_or env "COCOTB_TEST_MODULES" "" = "" ->
  _setup_regression_manager env =
    ([NewRegressionManager], Raised (RuntimeError [Text modules_message])).
Proof. intros H. unfold _setup_regression_manager. by rewrite H. Qed.

Lemma missing_modules_raise_first_witness :
  _setup_regression_manager Scenarios.filters_without_modules =
    ([NewRegressionManager], Raised (RuntimeError [Text modules_message])).
Proof.
  apply (missing_modules_raise_first Scenarios.filters_without_modules).
  reflexivity.
Defined.





(** *** The shutdown callbacks *)

Lemma register_all registered cbs :
  fold_left _register_shutdown_callback cbs registered
  = (registered ++ cbs)%list.
Proof.
  revert registered. induction cbs as [|cb cbs IH]; intros registered; simpl.
  - by rewrite app_nil_r.
  - rewrite IH. unfold _register_shutdown_callback. by rewrite <- app_assoc.
Qed.

Lemma shutdown_all_return cbs :
  Forall (fun cb => ending cb = Returned tt) cbs ->
  _shutdown_testbench cbs = (concat (List.map calls cbs), Returned tt).
Proof.
  induction 1 as [|cb cbs Hcb _ IH]; [reflexivity|].
  cbn [_shutdown_testbench]. destruct cb as [tr r]. simpl in Hcb. subst r.
  rewrite run_bind_returned, IH. reflexivity.
Qed.

(** X17: callbacks registered one after the other are all called at
    shutdown, each once, in the order of registration (after those
    registered earlier), when each of them returns. *)
Theorem shutdown_runs_in_registration_order registered cbs :
  Forall (fun cb => ending cb = Returned tt) (registered ++ cbs) ->
  _shutdown_testbench (fold_left _register_shutdown_callback cbs registered)
  = (concat (List.map calls (registered ++ cbs)), Returned tt).
Proof. intros H. rewrite register_all. by apply shutdown_all_return. Qed.

Lemma shutdown_runs_in_registration_order_witness :
  _shutdown_testbench
    (fold_left _register_shutdown_callback
       [Scenarios.says_goodbye; Scenarios.closes_waves]
       [Scenarios.closes_waves])
  = ([ProfilingFinalize; Core (Log "cocotb" INFO "bye" []); ProfilingFinalize],
     Returned tt).
Proof.
  apply (shutdown_runs_in_registration_order
           [Scenarios.closes_waves]
           [Scenarios.says_goodbye; Scenarios.closes_waves]).
  repeat constructor.
Defined.

(** X18: when a callback raises, the shutdown raises that exception: the
    callbacks registered before it have been called, those registered after
    it are not called. *)
Theorem shutdown_stops_at_first_failure before cb after e :
  Forall (fun cb => ending cb = Returned tt) before ->
  ending cb = Raised e ->
  _shutdown_testbench (before ++ cb :: after)
  = ((concat (List.map calls before) ++ calls cb)%list, Raised e).
Proof.
  intros Hbefore Hcb. induction Hbefore as [|cb0 before Hcb0 _ IH]; simpl.
  - destruct cb as [tr r]. simpl in Hcb. subst r. reflexivity.
  - destruct cb0 as [tr r]. simpl in Hcb0. subst r.
    rewrite run_bind_returned, IH. simpl. by rewrite app_assoc.
Qed.

Lemma shutdown_stops_at_first_failure_witness :
  _shutdown_testbench
    ([Scenarios.closes_waves] ++ Scenarios.fails_to_save
       :: [Scenarios.says_goodbye])
  = ([ProfilingFinalize; CoverageStop],
     Raised (RuntimeError [Text "disk full"])).
Proof.
  apply (shutdown_stops_at_first_failure
           [Scenarios.closes_waves] Scenarios.fails_to_save
           [Scenarios.says_goodbye] (RuntimeError [Text "disk full"])).
  - repeat constructor.
  - reflexivity.
Defined.

(** X19: on a simulator event, with the regression manager global assigned,
    the failure is first reported (to the regression manager if there is
    one, else to the log at error level) and then the shutdown callbacks are
    called in order; the result is that of the shutdown. *)
Theorem sim_event_reports_then_shuts_down regression_manager cbs msg :
  calls (_sim_event (Assigned regression_manager) cbs msg)
  = failure_report regression_manager msg :: calls (_shutdown_testbench cbs)
  ∧ ending (_sim_event (Assigned regression_manager) cbs msg)
    = ending (_shutdown_testbench cbs)
  ∧ (Forall (fun cb => ending cb = Returned tt) cbs ->
     _sim_event (Assigned regression_manager) cbs msg
     = (failure_report regression_manager msg :: concat (List.map calls cbs),
        Returned tt)).
Proof.
  assert (_sim_event (Assigned regression_manager) cbs msg
          = (failure_report regression_manager msg
               :: calls (_shutdown_testbench cbs),
             ending (_shutdown_testbench cbs))) as Heq.
  { unfold _sim_event, perform.
    destruct regression_manager as [[]|]; by rewrite run_bind_returned. }
  rewrite Heq. split; [reflexivity|]. split; [reflexivity|].
  intros H. by rewrite (shutdown_all_return _ H).
Qed.

Lemma sim_event_reports_then_shuts_down_witness :
  _sim_event (Assigned (Some tt))
    [Scenarios.closes_waves; Scenarios.says_goodbye] "simulator stopped"
  = ([FailSimulation "simulator stopped"; ProfilingFinalize;
      Core (Log "cocotb" INFO "bye" [])], Returned tt).
Proof.
  apply (proj2 (proj2 (sim_event_reports_then_shuts_down (Some tt)
           [Scenarios.closes_waves; Scenarios.says_goodbye]
           "simulator stopped"))).
  repeat constructor.
Defined.

(** *** The package handles *)

Lemma packages_loop_spec SIM_NAME pkgs pkg_dict :
  ∃ packages,
    packages_loop SIM_NAME pkgs pkg_dict =
      ((if bool_decide (SIM_NAME = "Icarus Verilog")
        then List.map (fun p => DiscoverAll (fst p)) pkgs else []),
       Returned packages)
    ∧ ∀ name,
        packages !! name =
        match last_named name pkgs with
        | Some pkg => Some (SimHandle pkg)
        | None => pkg_dict !! name
        end.
Proof.
  revert pkg_dict. induction pkgs as [|[pkg n] pkgs IH]; intros pkg_dict.
  - exists pkg_dict. split; [by case_bool_decide|done].
  - destruct (IH (<[n := SimHandle pkg]> pkg_dict)) as (packages & Heq & Hlook).
    exists packages. split.
    + cbn [packages_loop]. rewrite Heq.
      case_bool_decide; [unfold perform; by rewrite run_bind_returned|].
      by rewrite run_bind_ret.
    + intros name. rewrite Hlook. cbn [last_named].
      destruct (last_named name pkgs); [done|].
      destruct (decide (n = name)) as [->|Hn].
      * rewrite bool_decide_eq_true_2 by done. by rewrite lookup_insert_eq.
      * rewrite bool_decide_eq_false_2 by done. by rewrite lookup_insert_ne.
Qed.

(** X20: [_process_packages] never raises.  The namespace it builds has one
    attribute per package name, bound to the handle of the last package of
    that name, and is empty when the simulator gives no package list. *)
Theorem packages_namespace_last_wins sim SIM_NAME :
  ∃ packages,
    ending (_process_packages sim SIM_NAME) = Returned packages
    ∧ ∀ name,
        packages !! name =
        SimHandle <$>
          last_named name (default [] (simulator.package_iterate sim)).
Proof.
  unfold _process_packages, perform. rewrite run_bind_returned.
  destruct (simulator.package_iterate sim) as [pkgs|]; simpl.
  - destruct (packages_loop_spec SIM_NAME pkgs ∅) as (packages & Heq & Hlook).
    exists packages. rewrite Heq. split; [reflexivity|].
    intros name. rewrite Hlook.
    destruct (last_named name pkgs); [done|]. by rewrite lookup_empty.
  - exists ∅. split; [reflexivity|]. intros name. by rewrite lookup_empty.
Qed.

(** X21: the packages are asked for once; then, under "Icarus Verilog" (the
    exact product name), every package is discovered eagerly, in the order
    given and before the namespace is bound; under any other simulator none
    is. *)
Theorem packages_discovered_eagerly_under_icarus sim SIM_NAME :
  calls (_process_packages sim SIM_NAME) =
  PackageIterate ::
    (if bool_decide (SIM_NAME = "Icarus Verilog")
     then List.map (fun p => DiscoverAll (fst p))
            (default [] (simulator.package_iterate sim))
     else []).
Proof.
  unfold _process_packages, perform. rewrite run_bind_returned.
  destruct (simulator.package_iterate sim) as [pkgs|]; simpl.
  - destruct (packages_loop_spec SIM_NAME pkgs ∅) as (packages & Heq & _).
    by rewrite Heq.
  - by case_bool_decide.
Qed.

Example packages_under_icarus :
  _process_packages Scenarios.icarus "Icarus Verilog" =
    ([PackageIterate; DiscoverAll 11; DiscoverAll 12; DiscoverAll 13],
     Returned {[ "pkg_a" := SimHandle 13; "pkg_b" := SimHandle 12 ]}).
Proof. reflexivity. Qed.

(** *** User coverage *)

Lemma getenv_deprecated_spec env name old_name message :
  getenv_deprecated env name old_name message =
    ((if bool_decide (getenv env name = None
                      ∧ is_Some (getenv env old_name))
      then [Core (Warn "DeprecationWarning" message)] else []),
     Returned (env_or_deprecated env name old_name)).
Proof.
  unfold getenv_deprecated, env_or_deprecated.
  destruct (getenv env name) as [v|].
  - rewrite bool_decide_eq_false_2; [done|]. by intros [? _].
  - destruct (getenv env old_name) as [v|].
    + rewrite bool_decide_eq_true_2; [done|]. split; [done|by eexists].
    + rewrite bool_decide_eq_false_2; [done|]. intros [_ [? ?]]. done.
Qed.

Lemma coverage_ending importable package_dir env cbs :
  ending (_start_user_coverage importable package_dir env cbs)
  = Returned (if coverage_started importable env
              then (cbs ++ [stop_user_coverage])%list else cbs).
Proof.
  unfold _start_user_coverage, coverage_started.
  rewrite !getenv_deprecated_spec.
  rewrite run_bind_returned.
  destruct (env_or_deprecated env "COCOTB_USER_COVERAGE" "COVERAGE") as [v|];
    simpl; [|done].
  destruct (PyString.truthy v); simpl; [|done].
  destruct importable; simpl; [|done].
  by destruct (env_or_deprecated env "COCOTB_COVERAGE_RCFILE" "COVERAGE_RCFILE").
Qed.

Lemma coverage_never_starts_regression importable package_dir env cbs :
  List.filter is_start
    (calls (_start_user_coverage importable package_dir env cbs)) = [].
Proof.
  unfold _start_user_coverage.
  rewrite !getenv_deprecated_spec.
  rewrite run_bind_returned.
  destruct (env_or_deprecated env "COCOTB_USER_COVERAGE" "COVERAGE") as [v|];
    simpl; [|by case_bool_decide; rewrite List.filter_app].
  destruct (PyString.truthy v); simpl;
    [|by case_bool_decide; rewrite List.filter_app].
  destruct importable; simpl.
  - destruct (env_or_deprecated env "COCOTB_COVERAGE_RCFILE" "COVERAGE_RCFILE");
      repeat case_bool_decide; by rewrite ?List.filter_app.
  - by case_bool_decide; rewrite ?List.filter_app.
Qed.


Example coverage_zero_is_on :
  _start_user_coverage true "/site/cocotb" Scenarios.coverage_zero [] =
    ([ImportCoverage;
      Core (Warn "DeprecationWarning"
        "COVERAGE_RCFILE is deprecated in favor of COCOTB_COVERAGE_RCFILE");
      Core (Log "cocotb" INFO
        "Collecting coverage of user code. Coverage config file supplied." []);
      CoverageNew (CoverageConfigFile "");
      CoverageStart],
     Returned [stop_user_coverage]).
Proof. reflexivity. Qed.

(** X23: a primary variable that is set hides its deprecated alias, even
    when it is set to the empty text: the alias is not read and no warning
    is emitted.  This holds for the coverage switch and for the coverage
    configuration file. *)
Theorem coverage_alias_is_hidden importable package_dir env cbs :
  (is_Some (getenv env "COCOTB_USER_COVERAGE") ->
   _start_user_coverage importable package_dir env cbs
   = _start_user_coverage importable package_dir (delete "COVERAGE" env) cbs)
  ∧ (is_Some (getenv env "COCOTB_COVERAGE_RCFILE") ->
     _start_user_coverage importable package_dir env cbs
     = _start_user_coverage importable package_dir
         (delete "COVERAGE_RCFILE" env) cbs).
Proof.
  split.
  - intros [v Hv]. unfold _start_user_coverage, getenv_deprecated.
    assert (getenv (delete "COVERAGE" env) "COCOTB_USER_COVERAGE" = Some v)
      as -> by (unfold getenv in *; by rewrite lookup_delete_ne).
    rewrite Hv.
    assert (getenv (delete "COVERAGE" env) "COCOTB_COVERAGE_RCFILE"
            = getenv env "COCOTB_COVERAGE_RCFILE")
      as -> by (unfold getenv; by rewrite lookup_delete_ne).
    assert (getenv (delete "COVERAGE" env) "COVERAGE_RCFILE"
            = getenv env "COVERAGE_RCFILE")
      as -> by (unfold getenv; by rewrite lookup_delete_ne).
    reflexivity.
  - intros [v Hv]. unfold _start_user_coverage, getenv_deprecated.
    assert (getenv (delete "COVERAGE_RCFILE" env) "COCOTB_COVERAGE_RCFILE"
            = Some v)
      as -> by (unfold getenv in *; by rewrite lookup_delete_ne).
    rewrite Hv.
    assert (getenv (delete "COVERAGE_RCFILE" env) "COCOTB_USER_COVERAGE"
            = getenv env "COCOTB_USER_COVERAGE")
      as -> by (unfold getenv; by rewrite lookup_delete_ne).
    assert (getenv (delete "COVERAGE_RCFILE" env) "COVERAGE"
            = getenv env "COVERAGE")
      as -> by (unfold getenv; by rewrite lookup_delete_ne).
    reflexivity.
Qed.

Lemma coverage_alias_is_hidden_witness :
  _start_user_coverage true "/site/cocotb" Scenarios.coverage_off_and_on []
  = ([], Returned [])
  ∧ _start_user_coverage true "/site/cocotb"
      (delete "COVERAGE" Scenarios.coverage_off_and_on) []
    = ([], Returned []).
Proof.
  split; [reflexivity|].
  rewrite <- (proj1 (coverage_alias_is_hidden true "/site/cocotb"
                       Scenarios.coverage_off_and_on [])).
  - reflexivity.
  - by eexists.
Defined.


(** *** The bootstrap *)

Lemma process_plusargs_parsed argv :
  _process_plusargs argv = Returned (parsed_plusargs argv).
Proof.
  unfold parsed_plusargs, _process_plusargs.
  by destruct (plusargs_loop_returns argv ∅) as [plusargs ->].
Qed.

Lemma process_packages_returns sim SIM_NAME :
  ∃ packages,
    _process_packages sim SIM_NAME
    = (calls (_process_packages sim SIM_NAME), Returned packages).
Proof.
  unfold _process_packages, perform. rewrite run_bind_returned.
  destruct (simulator.package_iterate sim) as [pkgs|].
  - destruct (packages_loop_spec SIM_NAME pkgs ∅) as (packages & Heq & _).
    exists packages. by rewrite Heq.
  - by exists ∅.
Qed.

Lemma process_packages_calls sim SIM_NAME :
  calls (_process_packages sim SIM_NAME) =
  PackageIterate ::
    (if bool_decide (SIM_NAME = "Icarus Verilog")
     then List.map (fun p => DiscoverAll (fst p))
            (default [] (simulator.package_iterate sim))
     else []).
Proof.
  unfold _process_packages, perform. rewrite run_bind_returned.
  destruct (simulator.package_iterate sim) as [pkgs|]; simpl.
  - destruct (packages_loop_spec SIM_NAME pkgs ∅) as (packages & Heq & _).
    by rewrite Heq.
  - by case_bool_decide.
Qed.

Lemma bootstrap_steps
    literal_eval now warnoptions importable __version__ package_dir sim env
    registered argv_ :
  let SIM_NAME := PyString.strip (simulator.get_simulator_product sim) in
  let seed :=
    _setup_random_seed literal_eval now env (parsed_plusargs argv_) in
  let root := _setup_root_handle (simulator.get_root_handle sim) env in
  let cov :=
    _start_user_coverage importable package_dir env
      (registered ++ [profiling_finalize])%list in
  let reg := _setup_regression_manager env in
  let before_seed :=
    (bootstrap_preamble warnoptions __version__ package_dir sim
     ++ calls (_process_packages sim SIM_NAME))%list in
  _initialise_testbench literal_eval now warnoptions importable __version__
    package_dir sim env registered argv_ =
  match outcome seed with
  | Raised e => ((before_seed ++ (Core <$> trace seed))%list, Raised e)
  | Returned s =>
      match outcome root with
      | Raised e =>
          ((before_seed ++ (Core <$> trace seed) ++ (Core <$> trace root))%list,
           Raised e)
      | Returned t =>
          match outcome reg with
          | Raised e =>
              ((before_seed ++ (Core <$> trace seed) ++ (Core <$> trace root)
                ++ calls cov ++ (Core <$> trace reg))%list,
               Raised e)
          | Returned _ =>
              ((before_seed ++ (Core <$> trace seed) ++ (Core <$> trace root)
                ++ calls cov ++ (Core <$> trace reg)
                ++ [NewScheduler; StartRegression])%list,
               Returned
                 {| cocotb.is_simulation := true;
                    cocotb.argv := argv_;
                    cocotb.SIM_NAME := SIM_NAME;
                    cocotb.SIM_VERSION :=
                      PyString.strip (simulator.get_simulator_version sim);
                    cocotb.plusargs := parsed_plusargs argv_;
                    cocotb.packages :=
                      match ending (_process_packages sim SIM_NAME) with
                      | Returned packages => packages
                      | Raised _ => ∅
                      end;
                    cocotb._random_seed := s;
                    cocotb.top := t;
                    cocotb._shutdown_callbacks :=
                      if coverage_started importable env
                      then (registered ++ [profiling_finalize]
                            ++ [stop_user_coverage])%list
                      else (registered ++ [profiling_finalize])%list |})
          end
      end
  end.
Proof.
  intros SIM_NAME seed root cov reg before_seed.
  pose proof (coverage_ending importable package_dir env
                (registered ++ [profiling_finalize])) as Hcov.
  destruct (process_packages_returns sim SIM_NAME) as (packages & Hpk).
  subst before_seed seed root cov reg.
  unfold _initialise_testbench, _register_shutdown_callback,
    bootstrap_preamble.
  rewrite process_plusargs_parsed.
  change (PyString.strip (simulator.get_simulator_product sim))
    with SIM_NAME.
  cbv beta iota zeta delta
    [mbind Run_bind silent perform mret Run_ret _setup_logging].
  generalize dependent (_process_packages sim SIM_NAME).
  intros pk Hpk. rewrite Hpk. clear Hpk.
  destruct (_start_user_coverage importable package_dir env
              (registered ++ [profiling_finalize])) as [trc [cbs|e3]];
    [|discriminate Hcov].
  simpl in Hcov. injection Hcov as ->.
  destruct (_setup_random_seed literal_eval now env (parsed_plusargs argv_))
    as [trs [s|e1]];
  destruct (_setup_root_handle (simulator.get_root_handle sim) env)
    as [trr [t|e2]];
  destruct (_setup_regression_manager env) as [trg [[]|e4]];
  case_bool_decide; simpl; rewrite <- ?app_assoc; reflexivity.
Qed.


Lemma no_start_in_core (tr : list event) :
  List.filter is_start (Core <$> tr) = [].
Proof. induction tr as [|ev tr IH]; [reflexivity|]. exact IH. Qed.

Lemma no_start_in_packages sim SIM_NAME :
  List.filter is_start (calls (_process_packages sim SIM_NAME)) = [].
Proof.
  rewrite process_packages_calls. simpl. case_bool_decide; [|reflexivity].
  induction (default [] (simulator.package_iterate sim)) as [|p l IH];
    [reflexivity|exact IH].
Qed.

Lemma no_start_in_preamble warnoptions __version__ package_dir sim :
  List.filter is_start
    (bootstrap_preamble warnoptions __version__ package_dir sim) = [].
Proof. unfold bootstrap_preamble. by case_bool_decide. Qed.

(** X26: the scheduler is made and the regression started only when the
    whole setup has returned: then these are the last two calls of the
    bootstrap, made once, in this order; when the bootstrap raises, neither
    has been made. *)
Theorem regression_starts_only_after_setup
    literal_eval now warnoptions importable __version__ package_dir sim env
    registered argv_ :
  List.filter is_start
    (calls (_initialise_testbench literal_eval now warnoptions importable
              __version__ package_dir sim env registered argv_))
  = match ending (_initialise_testbench literal_eval now warnoptions
                    importable __version__ package_dir sim env registered
                    argv_) with
    | Returned _ => [NewScheduler; StartRegression]
    | Raised _ => []
    end
  ∧ match ending (_initialise_testbench literal_eval now warnoptions
                    importable __version__ package_dir sim env registered
                    argv_) with
    | Returned _ =>
        ∃ before,
          calls (_initialise_testbench literal_eval now warnoptions
                   importable __version__ package_dir sim env registered
                   argv_)
          = (before ++ [NewScheduler; StartRegression])%list
    | Raised _ => True
    end.
Proof.
  rewrite bootstrap_steps. cbv zeta.
  destruct (outcome (_setup_random_seed _ _ _ _)) as [s|e];
    [destruct (outcome (_setup_root_handle _ _)) as [t|e];
     [destruct (outcome (_setup_regression_manager _)) as [[]|e]|]|];
    cbn [calls ending fst snd];
    rewrite ?List.filter_app, ?no_start_in_core, ?no_start_in_packages,
      ?no_start_in_preamble, ?coverage_never_starts_regression;
    (split; [reflexivity|]); try exact I.
  eexists. rewrite !app_assoc. reflexivity.
Qed.

Lemma plusargs_loop_concat argv1 argv2 plusargs :
  plusargs_loop (argv1 ++ argv2)%list plusargs =
  match plusargs_loop argv1 plusargs with
  | Returned plusargs' => plusargs_loop argv2 plusargs'
  | Raised e => Raised e
  end.
Proof.
  revert plusargs. induction argv1 as [|o argv1 IH]; intros plusargs; simpl.
  - reflexivity.
  - destruct (plusargs_option plusargs o); [apply IH|reflexivity].
Qed.

(** The binding of a name is that of the last token that binds it. *)
Lemma plusargs_last_binding before token after name value :
  token_binds token (Some (name, value)) ->
  (∀ later value',
     later ∈ after -> ¬ token_binds later (Some (name, value'))) ->
  parsed_plusargs (before ++ token :: after) !! name = Some value.
Proof.
  intros Hb Hlater.
  pose proof (process_plusargs_parsed (before ++ token :: after)) as Hall.
  unfold _process_plusargs in Hall. rewrite plusargs_loop_concat in Hall.
  destruct (plusargs_loop_returns before ∅) as [p0 Hbefore].
  rewrite Hbefore in Hall. simpl in Hall.
  rewrite (plusargs_option_binds _ _ _ Hb) in Hall. simpl in Hall.
  rewrite (plusargs_loop_keeps _ _ _ name Hlater Hall).
  apply lookup_insert_eq.
Qed.

(** X27: a seed given on the simulator's command line reaches the random
    module: when no seed variable is set and the last [+ntb_random_seed=...]
    of the argument vector holds the text of an integer, the bootstrap seeds
    the random module with that integer (even if a later step fails), and
    it is the [_random_seed] left when the bootstrap returns. *)
Theorem command_line_seed_reaches_random
    literal_eval now warnoptions importable __version__ package_dir sim env
    registered before text after n :
  getenv env "COCOTB_RANDOM_SEED" = None ->
  getenv env "RANDOM_SEED" = None ->
  (∀ later value,
     later ∈ after ->
     ¬ token_binds later (Some ("ntb_random_seed", value))) ->
  literal_eval text = Returned (PyInt n) ->
  Core (RandomSeed (PyInt n))
    ∈ calls (_initialise_testbench literal_eval now warnoptions importable
               __version__ package_dir sim env registered
               (before ++ ("+ntb_random_seed=" ++ text) :: after))
  ∧ ∀ g,
      ending (_initialise_testbench literal_eval now warnoptions importable
                __version__ package_dir sim env registered
                (before ++ ("+ntb_random_seed=" ++ text) :: after))
      = Returned g ->
      cocotb._random_seed g = PyInt n.
Proof.
  intros Hp Hd Hlater He.
  assert (parsed_plusargs (before ++ ("+ntb_random_seed=" ++ text) :: after)
            !! "ntb_random_seed" = Some (PyStr text)) as Hlook.
  { apply plusargs_last_binding; [|exact Hlater].
    by apply (binds_value "ntb_random_seed" text). }
  assert (_setup_random_seed literal_eval now env
            (parsed_plusargs
               (before ++ ("+ntb_random_seed=" ++ text) :: after))
          = ([Log "cocotb" INFO "Seeding Python random module with %d"
                  [PyInt n];
              RandomSeed (PyInt n)], Returned (PyInt n))) as Hseed.
  { apply (seed_from_plusarg _ _ _ _ "ntb_random_seed" text n Hp Hd);
      [|exact He].
    unfold seed_plusarg. by rewrite Hlook. }
  rewrite bootstrap_steps. cbv zeta. rewrite Hseed.
  cbn [outcome trace fst snd].
  assert (Core (RandomSeed (PyInt n))
          ∈ Core <$> [Log "cocotb" INFO "Seeding Python random module with %d"
                          [PyInt n];
                      RandomSeed (PyInt n)]) as Hin.
  { apply list_elem_of_In. simpl. auto. }
  destruct (outcome (_setup_root_handle _ _)) as [t|e];
    [destruct (outcome (_setup_regression_manager _)) as [[]|e]|];
    cbn [calls ending fst snd];
    (split; [|intros g Hg; try discriminate Hg; by injection Hg as <-]);
    rewrite ?elem_of_app;
    first [by right; left | by right].
Qed.

Lemma command_line_seed_reaches_random_witness :
  Core (RandomSeed (PyInt 3))
    ∈ calls (_initialise_testbench DecimalLiterals.literal_eval 1700000000 []
               true "2.0.0" "/site/cocotb" Scenarios.icarus
               Scenarios.bench_env [] Scenarios.bench_argv)
  ∧ ∀ g,
      ending (_initialise_testbench DecimalLiterals.literal_eval 1700000000
                [] true "2.0.0" "/site/cocotb" Scenarios.icarus
                Scenarios.bench_env [] Scenarios.bench_argv)
      = Returned g ->
      cocotb._random_seed g = PyInt 3.
Proof.
  apply (command_line_seed_reaches_random DecimalLiterals.literal_eval
           1700000000 [] true "2.0.0" "/site/cocotb" Scenarios.icarus
           Scenarios.bench_env [] ["vvp"; "+ntb_random_seed=1"] "3"
           ["+trace"] 3).
  - reflexivity.
  - reflexivity.
  - intros later value Hin Hb.
    apply list_elem_of_In in Hin. simpl in Hin.
    destruct Hin as [<-|[]]; inversion Hb; subst; discriminate.
  - reflexivity.
Defined.

Example bootstrap_of_a_bench :
  _initialise_testbench DecimalLiterals.literal_eval 1700000000 [] true
    "2.0.0" "/site/cocotb" Scenarios.icarus Scenarios.bench_env []
    Scenarios.bench_argv
  = ([SetSimEventCallback; SysPathInsert 0 ""; LoggingDefaultConfig;
      InitializeLogger; SimpleFilter "default"; GetSimulatorProduct;
      GetSimulatorVersion;
      Core (Log "cocotb" INFO "Running on Icarus Verilog version 12.0" []);
      Core (Log "cocotb" INFO
              "Running tests with cocotb v2.0.0 from /site/cocotb" []);
      ProfilingInitialize; PackageIterate; DiscoverAll 11; DiscoverAll 12;
      DiscoverAll 13;
      Core (Log "cocotb" INFO "Seeding Python random module with %d"
              [PyInt 3]);
      Core (RandomSeed (PyInt 3)); Core (GetRootHandle (Some "top"));
      Core NewRegressionManager; Core SetupPytestAssertionRewriting;
      Core (DiscoverTests ["test_a"]); NewScheduler; StartRegression],
     Returned
       {| cocotb.is_simulation := true;
          cocotb.argv := Scenarios.bench_argv;
          cocotb.SIM_NAME := "Icarus Verilog";
          cocotb.SIM_VERSION := "12.0";
          cocotb.plusargs :=
            {[ "ntb_random_seed" := PyStr "3"; "trace" := PyBool true ]};
          cocotb.packages :=
            {[ "pkg_a" := SimHandle 13; "pkg_b" := SimHandle 12 ]};
          cocotb._random_seed := PyInt 3;
          cocotb.top := SimHandle 1;
          cocotb._shutdown_callbacks := [profiling_finalize] |}).
Proof. reflexivity. Qed.
